(** * Swagger assistant tools: PlantUML extractor, encoder and tool boundary

    A shallow embedding of [lab04-advance-rag-agent/strands_agent_tools.py]:
    the text utilities ([extract_plantuml_code], [encode_plantuml]), the
    helpers around the rendering server and the object store, and the three
    tool entry points.  The library functions and service clients the module
    calls (the zlib compressor, the JSON serialiser, the model, retrieval,
    HTTP and storage clients) are parameters: every theorem holds for
    whatever they compute. *)

From Stdlib Require Import ZArith List Bool Lia String Ascii.
From Stdlib.Strings Require Import Byte.
From Stdlib Require Import DecimalString.
Import ListNotations.

Local Open Scope string_scope.
Local Open Scope list_scope.
Local Open Scope Z_scope.

(** ** Python values *)

(** A Python [str] is a sequence of Unicode code points, each from 0 to
    1114111. *)
Definition str := list Z.

(** A Python [bytes] object. *)
Definition bytes := list Byte.byte.

(** An ASCII source literal as a [str]. *)
Definition lit (s : string) : str :=
  map (fun a => Z.of_N (N_of_ascii a)) (list_ascii_of_string s).

Definition len {A : Type} (l : list A) : Z := Z.of_nat (List.length l).

Definition str_eqb (a b : str) : bool :=
  if list_eq_dec Z.eq_dec a b then true else false.

(** Exceptions carry their class and the text [str(e)] returns.  They are
    the instances of [Exception], what a failing step raises. *)
Inductive exn_class : Type :=
| ExceptionC
| ValueErrorC
| IndexErrorC
| UnicodeEncodeErrorC
| AttributeErrorC
| TypeErrorC.

Record exn : Type := Raise { exn_cls : exn_class; exn_str : str }.

(** A computation either raises or returns. *)
Inductive result (A : Type) : Type :=
| Err (e : exn)
| Ok (a : A).
Arguments Err {A} e.
Arguments Ok {A} a.

Definition bind {A B : Type} (m : result A) (k : A -> result B) : result B :=
  match m with
  | Err e => Err e
  | Ok a => k a
  end.

Notation "x <- m ;; k" := (bind m (fun x => k))
  (at level 61, m at next level, right associativity).

(** [try: m except Exception as e: h e] *)
Definition try_except {A : Type} (m : result A) (h : exn -> result A) : result A :=
  match m with
  | Err e => h e
  | Ok a => Ok a
  end.

(** ** String primitives of the Python runtime *)

Module Py.

(** [s.startswith(p)] *)
Fixpoint startswith (s p : str) {struct p} : bool :=
  match p, s with
  | [], _ => true
  | _ :: _, [] => false
  | x :: p', y :: s' => (x =? y) && startswith s' p'
  end.

(** [s.endswith(p)] *)
Definition endswith (s p : str) : bool := startswith (rev s) (rev p).

(** [s.find(sub)]: lowest index where [sub] occurs, if any. *)
Fixpoint find (s sub : str) : option Z :=
  if startswith s sub then Some 0
  else match s with
       | [] => None
       | _ :: s' => option_map Z.succ (find s' sub)
       end.

(** [sub in s] *)
Definition contains (s sub : str) : bool :=
  match find s sub with Some _ => true | None => false end.

(** Clamp a slice bound the way [PySlice_AdjustIndices] does. *)
Definition adjust (n i : Z) : Z :=
  if i <? 0 then Z.max (i + n) 0 else Z.min i n.

(** [l[i:j]] *)
Definition slice {A : Type} (l : list A) (i j : Z) : list A :=
  let i' := adjust (len l) i in
  let j' := adjust (len l) j in
  firstn (Z.to_nat (j' - i')) (skipn (Z.to_nat i') l).

Definition substring_not_found : exn :=
  Raise ValueErrorC (lit "substring not found").

(** [s.index(sub)] *)
Definition index (s sub : str) : result Z :=
  match find s sub with
  | Some i => Ok i
  | None => Err substring_not_found
  end.

(** [s.index(sub, start)] *)
Definition index_from (s sub : str) (start : Z) : result Z :=
  if len s <? start then Err substring_not_found
  else
    let start' := adjust (len s) start in
    match find (skipn (Z.to_nat start') s) sub with
    | Some i => Ok (start' + i)
    | None => Err substring_not_found
    end.

(** [s.replace(old, new)] scans left to right and replaces the occurrences
    of [old] that do not overlap an earlier one.  [skip] counts the
    characters of a match still to be passed over. *)
Fixpoint replace_scan (old new : str) (skip : nat) (s : str) : str :=
  match s with
  | [] => []
  | c :: s' =>
      match skip with
      | S k => replace_scan old new k s'
      | O =>
          if startswith s old
          then new ++ replace_scan old new (pred (List.length old)) s'
          else c :: replace_scan old new O s'
      end
  end.

Definition replace (s old new : str) : str :=
  match old with
  | [] => new ++ flat_map (fun c => c :: new) s
  | _ :: _ => replace_scan old new O s
  end.

(** [c.isspace()], the predicate [str.strip()] uses. *)
Definition isspace (c : Z) : bool :=
  ((9 <=? c) && (c <=? 13)) || ((28 <=? c) && (c <=? 32))
  || (c =? 133) || (c =? 160) || (c =? 5760)
  || ((8192 <=? c) && (c <=? 8202))
  || (c =? 8232) || (c =? 8233) || (c =? 8239) || (c =? 8287)
  || (c =? 12288).

Fixpoint lstrip (s : str) : str :=
  match s with
  | [] => []
  | c :: s' => if isspace c then lstrip s' else s
  end.

Definition rstrip (s : str) : str := rev (lstrip (rev s)).

(** [s.strip()] *)
Definition strip (s : str) : str := rstrip (lstrip s).

(** [str(n)] for an [int]. *)
Definition str_of_int (n : Z) : str :=
  lit (NilZero.string_of_int (Z.to_int n)).

End Py.

(** ** extract_plantuml_code *)

Definition fence_open : str := lit "```plantuml".
Definition startuml : str := lit "@startuml".
Definition fence_close : str := lit "```".
Definition enduml : str := lit "@enduml".
Definition nl : str := [10].

Definition start_markers : list str := [fence_open; startuml].
Definition end_markers : list str := [fence_close; enduml].

(** The statements after [end_idx] is found. *)
Definition extract_block (response_text : str) (start_idx end_idx : Z) : str :=
  let code := Py.strip (Py.slice response_text start_idx end_idx) in
  let code :=
    if negb (Py.startswith code startuml) then startuml ++ nl ++ code else code in
  let code :=
    if negb (Py.endswith code enduml) then code ++ nl ++ enduml else code in
  code.

(** The inner loop over the end markers: the first [index] that does not
    raise [ValueError] returns; when all raise the loop falls through. *)
Fixpoint extract_end_loop (response_text : str) (start_idx : Z)
    (markers : list str) : option str :=
  match markers with
  | [] => None
  | end_marker :: rest =>
      match Py.index_from response_text end_marker start_idx with
      | Ok end_idx => Some (extract_block response_text start_idx end_idx)
      | Err _ => extract_end_loop response_text start_idx rest
      end
  end.

(** The outer loop over the start markers.  A start marker whose end
    markers are all missing lets the loop go on to the next start marker. *)
Fixpoint extract_start_loop (response_text : str) (markers : list str)
    : result (option str) :=
  match markers with
  | [] => Ok None
  | start_marker :: rest =>
      if Py.contains response_text start_marker then
        start_idx <- Py.index response_text start_marker ;;
        let start_idx :=
          if str_eqb start_marker fence_open
          then start_idx + len start_marker else start_idx in
        match extract_end_loop response_text start_idx end_markers with
        | Some code => Ok (Some code)
        | None => extract_start_loop response_text rest
        end
      else extract_start_loop response_text rest
  end.

Definition no_markers_found : exn :=
  Raise ValueErrorC (lit "No valid PlantUML code markers found").

Definition extract_plantuml_code (response_text : str) : result str :=
  try_except
    (found <- extract_start_loop response_text start_markers ;;
     match found with
     | Some code => Ok code
     | None => Err no_markers_found
     end)
    (fun e =>
       Err (Raise ValueErrorC
              (lit "Could not extract PlantUML code: " ++ exn_str e))).

(** ** UTF-8 encoding ([str.encode('utf-8')]) *)

Definition byte_val (b : Byte.byte) : Z := Z.of_N (Byte.to_N b).

Definition byte_of (z : Z) : Byte.byte :=
  match Byte.of_N (Z.to_N z) with
  | Some b => b
  | None => Byte.x00
  end.

Definition is_surrogate (c : Z) : bool := (55296 <=? c) && (c <=? 57343).

Definition continuation (z : Z) : Z := Z.lor 128 (Z.land z 63).

(** The bytes of one code point that is not a surrogate. *)
Definition utf8_char (c : Z) : list Z :=
  if c <? 128 then [c]
  else if c <? 2048 then
    [Z.lor 192 (Z.shiftr c 6); continuation c]
  else if c <? 65536 then
    [Z.lor 224 (Z.shiftr c 12); continuation (Z.shiftr c 6); continuation c]
  else
    [Z.lor 240 (Z.shiftr c 18); continuation (Z.shiftr c 12);
     continuation (Z.shiftr c 6); continuation c].

Definition hex_digit (d : Z) : Z :=
  nth (Z.to_nat d) (lit "0123456789abcdef") 48.

(** [%04x] of a code point below 65536. *)
Definition hex4 (c : Z) : str :=
  [hex_digit (Z.shiftr c 12); hex_digit (Z.land (Z.shiftr c 8) 15);
   hex_digit (Z.land (Z.shiftr c 4) 15); hex_digit (Z.land c 15)].

Fixpoint surrogate_run (s : str) : Z :=
  match s with
  | [] => 0
  | c :: s' => if is_surrogate c then 1 + surrogate_run s' else 0
  end.

(** [str(e)] of the [UnicodeEncodeError] raised at a surrogate [c] found at
    [pos], followed by [more] further surrogates. *)
Definition surrogates_not_allowed (c pos more : Z) : exn :=
  Raise UnicodeEncodeErrorC
    (if more =? 0 then
       lit "'utf-8' codec can't encode character '\u" ++ hex4 c
       ++ lit "' in position " ++ Py.str_of_int pos
       ++ lit ": surrogates not allowed"
     else
       lit "'utf-8' codec can't encode characters in position "
       ++ Py.str_of_int pos ++ lit "-" ++ Py.str_of_int (pos + more)
       ++ lit ": surrogates not allowed").

Fixpoint encode_utf8_from (pos : Z) (s : str) : result bytes :=
  match s with
  | [] => Ok []
  | c :: s' =>
      if is_surrogate c
      then Err (surrogates_not_allowed c pos (surrogate_run s'))
      else
        rest <- encode_utf8_from (pos + 1) s' ;;
        Ok (map byte_of (utf8_char c) ++ rest)
  end.

Definition encode_utf8 (s : str) : result bytes := encode_utf8_from 0 s.

(** ** encode_plantuml *)

Definition base64_chars : str :=
  lit "0123456789ABCDEFGHIJKLMNOPQRSTUVWXYZabcdefghijklmnopqrstuvwxyz-_".

(** [l[i]] for a list or a string; [what] names the type in the message. *)
Definition getitem {A : Type} (what : string) (l : list A) (i : Z) : result A :=
  let i' := if i <? 0 then i + len l else i in
  match (if i' <? 0 then None else nth_error l (Z.to_nat i')) with
  | Some x => Ok x
  | None =>
      Err (Raise IndexErrorC (lit what ++ lit " index out of range"))
  end.

(** [range(start, stop, step)] for a positive [step]. *)
Definition range (start stop step : Z) : list Z :=
  map (fun k => start + step * Z.of_nat k)
      (seq 0 (Z.to_nat ((stop - start + step - 1) / step))).

(** The first two statements: strip the markers, trim, wrap again. *)
Definition rewrap (plantuml_text : str) : str :=
  let plantuml_text :=
    Py.strip (Py.replace (Py.replace plantuml_text startuml []) enduml []) in
  startuml ++ nl ++ plantuml_text ++ nl ++ enduml.

(** The body of the packing loop for one [chunk]. *)
Definition encode_chunk (chunk : bytes) (encoded : str) : result str :=
  let b := map byte_val chunk ++ repeat 0 (Z.to_nat (3 - len chunk)) in
  x0 <- getitem "list" b 0 ;;
  let b1 := Z.shiftr x0 2 in
  x0 <- getitem "list" b 0 ;;
  x1 <- getitem "list" b 1 ;;
  let b2 := Z.lor (Z.shiftl (Z.land x0 3) 4) (Z.shiftr x1 4) in
  x1 <- getitem "list" b 1 ;;
  x2 <- getitem "list" b 2 ;;
  let b3 := Z.lor (Z.shiftl (Z.land x1 15) 2) (Z.shiftr x2 6) in
  x2 <- getitem "list" b 2 ;;
  let b4 := Z.land x2 63 in
  c1 <- getitem "string" base64_chars b1 ;;
  c2 <- getitem "string" base64_chars b2 ;;
  let encoded := encoded ++ ([c1] ++ [c2]) in
  encoded <-
    (if 1 <? len chunk
     then c3 <- getitem "string" base64_chars b3 ;; Ok (encoded ++ [c3])
     else Ok encoded) ;;
  encoded <-
    (if 2 <? len chunk
     then c4 <- getitem "string" base64_chars b4 ;; Ok (encoded ++ [c4])
     else Ok encoded) ;;
  Ok encoded.

(** The packing loop: [for i in range(0, len(compressed), 3)]. *)
Definition encode_loop (compressed : bytes) : result str :=
  fold_left
    (fun acc i =>
       encoded <- acc ;;
       encode_chunk (Py.slice compressed i (i + 3)) encoded)
    (range 0 (len compressed) 3)
    (Ok []).

Section Encoder.

(** [zlib.compress] at its default level. *)
Variable zlib_compress : bytes -> bytes.

(** [zlib.compress(data)[2:-4]] *)
Definition compressed_of (data : bytes) : bytes :=
  Py.slice (zlib_compress data) 2 (-4).

Definition encode_plantuml (plantuml_text : str) : result str :=
  let plantuml_text := rewrap plantuml_text in
  data <- encode_utf8 plantuml_text ;;
  let compressed := compressed_of data in
  encode_loop compressed.

End Encoder.

(** A zlib stream that stores its input uncompressed (one stored block per
    65535 bytes): an instance of the compressor to run the encoder on. *)
Module Stored.

Definition adler32 (data : bytes) : Z :=
  let '(a, b) :=
    fold_left
      (fun '(a, b) x =>
         let a := (a + byte_val x) mod 65521 in (a, (b + a) mod 65521))
      data (1, 0) in
  Z.lor (Z.shiftl b 16) a.

Definition block (final : bool) (data : bytes) : bytes :=
  let n := len data in
  map byte_of
    [if final then 1 else 0; Z.land n 255; Z.shiftr n 8;
     Z.land (Z.lxor n 65535) 255; Z.shiftr (Z.lxor n 65535) 8]
  ++ data.

Fixpoint blocks (fuel : nat) (data : bytes) : bytes :=
  match fuel with
  | O => block true data
  | S fuel' =>
      if len data <=? 65535 then block true data
      else block false (firstn (Z.to_nat 65535) data)
           ++ blocks fuel' (skipn (Z.to_nat 65535) data)
  end.

Definition compress (data : bytes) : bytes :=
  let sum := adler32 data in
  map byte_of [120; 1]
  ++ blocks (List.length data) data
  ++ map byte_of
       [Z.shiftr sum 24; Z.land (Z.shiftr sum 16) 255;
        Z.land (Z.shiftr sum 8) 255; Z.land sum 255].

End Stored.

(** ** JSON values and the dynamic operations the tools use on them *)

#[warnings="-register-all"]
Inductive json : Type :=
| JNull
| JBool (b : bool)
| JInt (n : Z)
| JFloat (repr : str)
| JStr (s : str)
| JList (items : list json)
| JDict (fields : list (string * json)).

Definition type_name (v : json) : string :=
  match v with
  | JNull => "NoneType"
  | JBool _ => "bool"
  | JInt _ => "int"
  | JFloat _ => "float"
  | JStr _ => "str"
  | JList _ => "list"
  | JDict _ => "dict"
  end.

Fixpoint lookup (key : string) (fields : list (string * json)) : option json :=
  match fields with
  | [] => None
  | (k, v) :: rest => if String.eqb k key then Some v else lookup key rest
  end.

Definition keys (fields : list (string * json)) : list string := map fst fields.

(** [obj.get(key, default)] *)
Definition py_get (obj : json) (key : string) (default : json) : result json :=
  match obj with
  | JDict fields =>
      Ok (match lookup key fields with Some v => v | None => default end)
  | _ =>
      Err (Raise AttributeErrorC
             (lit "'" ++ lit (type_name obj)
              ++ lit "' object has no attribute 'get'"))
  end.

(** The items [for x in obj] visits. *)
Definition py_iter (obj : json) : result (list json) :=
  match obj with
  | JList items => Ok items
  | JDict fields => Ok (map (fun k => JStr (lit k)) (keys fields))
  | JStr s => Ok (map (fun c => JStr [c]) s)
  | _ =>
      Err (Raise TypeErrorC
             (lit "'" ++ lit (type_name obj) ++ lit "' object is not iterable"))
  end.

(** ** Constants *)

Definition PLANTUML_SERVER : str := lit "http://www.plantuml.com/plantuml".

Definition UML_GENERATION_PROMPT : str := lit "
Your task is to generate a UML Sequential diagram in PlantUML format based on the given OpenAPI YAML file. The YAML file will be provided in the following format:

<YAML_FILE>
{YAML_FILE}
</YAML_FILE>

Important Instructions:
1. Analyze the YAML file carefully to understand the API endpoints, methods, and their interactions
2. Create a sequence diagram that shows:
   - Client interactions with the API endpoints
   - Request/response flows
   - Different HTTP methods used
   - Success and error scenarios
3. Your response MUST contain the PlantUML code wrapped in plantuml code blocks like this:
```plantuml
@startuml
... your sequence diagram code here ...
@enduml
```

4. Make sure to:
   - Include all API endpoints from the YAML
   - Show proper sequence flows
   - Include HTTP methods (GET, POST, etc.)
   - Show request/response data where relevant
   - Use proper PlantUML sequence diagram syntax

Generate ONLY the PlantUML code without any additional explanation or text.
".

Definition CODE_GENERATION_PROMPT : str := lit "
Your task is to generate a code snippet based on a given OpenAPI YAML file and a user query. The
YAML file will be provided in the following format:

<YAML_FILE>
{YAML_FILE}
</YAML_FILE>

The user query will be provided like this:

<USER_QUERY>
{USER_QUERY}
</USER_QUERY>

To complete this task, follow these steps:

1. Carefully read and understand the user query. Identify the specific API endpoint, HTTP method,
and any required parameters or request body mentioned in the query.

2. Analyze the provided YAML file and locate the relevant section that corresponds to the user's
query. The YAML file follows the OpenAPI specification and contains information about the API's
endpoints, methods, parameters, request/response bodies, etc.

3. Once you have identified the relevant section in the YAML file, extract the necessary information
to construct the code snippet, such as the endpoint URL, HTTP method, required parameters, and
request body structure (if applicable).

4. Use the extracted information to generate the code snippet in the programming language specified
by the user (e.g., Python, JavaScript, etc.). The code snippet should include the necessary
imports/libraries, the API endpoint URL, the HTTP method, any required parameters, and the request
body (if applicable).

5. Format the generated code snippet using markdown code blocks, like this:

```<programming_language>
<code_snippet>
```

This will allow the user to easily copy and paste the code snippet.

6. If the user's query cannot be fulfilled based on the provided YAML file, or if there is any
ambiguity or missing information, explain the issue politely and ask for clarification from the
user.

Remember, your goal is to generate a code snippet that accurately reflects the user's query based on
the information provided in the OpenAPI YAML file. Do not include any additional functionality or
code beyond what is necessary to fulfill the user's request.
".

Definition MODEL_ID : str := lit "anthropic.claude-3-sonnet-20240229-v1:0".

(** ** The helpers and the tools, over their collaborators *)

Record http_response : Type := Response { status : Z; data : bytes }.

(** The module-level clients and library functions the tools call. *)
Record services : Type := Services {
  (** [zlib.compress] at its default level *)
  compress : bytes -> bytes;
  (** [json.dumps] *)
  json_dumps : json -> str;
  (** [bedrock_runtime.invoke_model(modelId, body)] followed by reading the
      response body, [json.loads] and the selection
      [["content"][0]["text"]]: the generated text, or the exception one of
      these raised *)
  invoke_model_text : str -> str -> result str;
  (** [bedrock_agent_runtime.retrieve] on the knowledge base id, the query
      text and the number of results *)
  retrieve : str -> str -> Z -> result json;
  (** [http.request(method, url)] *)
  http_request : str -> str -> result http_response;
  (** [str(uuid.uuid4())] of this invocation *)
  uuid4 : str;
  (** the session's region, the caller's account, and the S3 calls *)
  region_name : option str;
  get_caller_identity_account : result str;
  head_bucket : str -> result unit;
  create_bucket : str -> json -> result unit;
  put_object : str -> str -> bytes -> str -> result unit
}.

Section Tools.

Variable env : services.

Definition format_region (region : option str) : str :=
  match region with
  | Some r => r
  | None => lit "None"
  end.

Definition region_is (region : option str) (name : str) : bool :=
  match region with
  | Some r => str_eqb r name
  | None => false
  end.

Definition get_default_bucket : result str :=
  try_except
    (let region := region_name env in
     account <- get_caller_identity_account env ;;
     let bucket_name :=
       lit "sagemaker-" ++ format_region region ++ lit "-" ++ account in
     _ <- try_except (head_bucket env bucket_name)
            (fun _ =>
               create_bucket env bucket_name
                 (if negb (region_is region (lit "us-east-1"))
                  then JDict [("LocationConstraint",
                               match region with
                               | Some r => JStr r
                               | None => JNull
                               end)]
                  else JDict [])) ;;
     Ok bucket_name)
    (fun e =>
       Err (Raise ExceptionC (lit "Error getting default bucket: " ++ exn_str e))).

Definition get_diagram_from_server (plantuml_code output_format : str)
    : result bytes :=
  try_except
    (encoded <- encode_plantuml (compress env) plantuml_code ;;
     let url :=
       PLANTUML_SERVER ++ lit "/" ++ output_format ++ lit "/" ++ encoded in
     response <- http_request env (lit "GET") url ;;
     if status response =? 200 then Ok (data response)
     else
       Err (Raise ExceptionC
              (lit "Failed to get diagram: HTTP "
               ++ Py.str_of_int (status response))))
    (fun e =>
       Err (Raise ExceptionC
              (lit "Error getting diagram from server: " ++ exn_str e))).

Definition upload_to_s3 (diagram_data : bytes) (key : str) : result str :=
  try_except
    (bucket_name <- get_default_bucket ;;
     _ <- put_object env bucket_name key diagram_data (lit "image/png") ;;
     let s3_uri := lit "s3://" ++ bucket_name ++ lit "/" ++ key in
     Ok s3_uri)
    (fun e => Err (Raise ExceptionC (lit "Error uploading to S3: " ++ exn_str e))).

(** The request body both generation tools send. *)
Definition request_body (prompt : str) : str :=
  let content := [JDict [("type", JStr (lit "text")); ("text", JStr prompt)]] in
  json_dumps env
    (JDict [("anthropic_version", JStr (lit "bedrock-2023-05-31"));
            ("max_tokens", JInt 4096);
            ("messages",
             JList [JDict [("role", JStr (lit "user"));
                           ("content", JList content)]])]).

(** [get_uml_diagram] up to the model's answer. *)
Definition uml_model_text (yml_body : str) : result str :=
  let prompt := Py.replace UML_GENERATION_PROMPT (lit "{YAML_FILE}") yml_body in
  invoke_model_text env MODEL_ID (request_body prompt).

Definition diagram_file_name (output_format : str) : str :=
  lit "diagrams/" ++ uuid4 env ++ lit "." ++ output_format.

(** The [try] block of [get_uml_diagram], up to the dictionary [result]. *)
Definition get_uml_diagram_try (yml_body output_format : str) : result json :=
  plantuml_text <- uml_model_text yml_body ;;
  plantuml_code <- extract_plantuml_code plantuml_text ;;
  diagram_data <- get_diagram_from_server plantuml_code output_format ;;
  let file_name := diagram_file_name output_format in
  diagram_s3_uri <- upload_to_s3 diagram_data file_name ;;
  Ok (JDict
        [("codeBody", JStr plantuml_code);
         ("diagramUri", JStr diagram_s3_uri);
         ("summary",
          JStr (lit "UML diagram generated successfully and saved to "
                ++ diagram_s3_uri))]).

(** The dictionary [get_uml_diagram] serialises: [result] when the [try]
    block completes, [error_result] when it raises. *)
Definition get_uml_diagram_result (yml_body output_format : str) : json :=
  match get_uml_diagram_try yml_body output_format with
  | Ok result => result
  | Err e =>
      JDict [("error", JStr (exn_str e)); ("codeBody", JNull);
             ("diagramUri", JNull)]
  end.

Definition get_uml_diagram (yml_body output_format : str) : str :=
  json_dumps env (get_uml_diagram_result yml_body output_format).

Definition get_unit_test_code_try (yml_body user_query : str) : result json :=
  let prompt := Py.replace CODE_GENERATION_PROMPT (lit "{YAML_FILE}") yml_body in
  let prompt := Py.replace prompt (lit "{USER_QUERY}") user_query in
  code_body <- invoke_model_text env MODEL_ID (request_body prompt) ;;
  Ok (JDict [("codeBody", JStr code_body)]).

Definition get_unit_test_code_result (yml_body user_query : str) : json :=
  match get_unit_test_code_try yml_body user_query with
  | Ok result => result
  | Err e => JDict [("error", JStr (exn_str e)); ("codeBody", JNull)]
  end.

Definition get_unit_test_code (yml_body user_query : str) : str :=
  json_dumps env (get_unit_test_code_result yml_body user_query).

(** The loop body of [search_knowledge_base]. *)
Definition search_entry (r : json) : result json :=
  content <- py_get r "content" (JDict []) ;;
  text <- py_get content "text" (JStr []) ;;
  score <- py_get r "score" (JInt 0) ;;
  metadata <- py_get r "metadata" (JDict []) ;;
  Ok (JDict [("content", text); ("score", score); ("metadata", metadata)]).

Fixpoint search_loop (items results : list json) : result (list json) :=
  match items with
  | [] => Ok results
  | r :: rest =>
      entry <- search_entry r ;;
      search_loop rest (results ++ [entry])
  end.

Definition search_knowledge_base_try (query kb_id : str) (max_results : Z)
    : result json :=
  response <- retrieve env kb_id query max_results ;;
  found <- py_get response "retrievalResults" (JList []) ;;
  items <- py_iter found ;;
  results <- search_loop items [] ;;
  Ok (JDict [("query", JStr query); ("results", JList results);
             ("count", JInt (len results))]).

Definition search_knowledge_base_result (query kb_id : str) (max_results : Z)
    : json :=
  match search_knowledge_base_try query kb_id max_results with
  | Ok result => result
  | Err e => JDict [("error", JStr (exn_str e)); ("results", JList [])]
  end.

Definition search_knowledge_base (query kb_id : str) (max_results : Z) : str :=
  json_dumps env (search_knowledge_base_result query kb_id max_results).

(** An internal step of [get_uml_diagram] raises [e]: the model invocation,
    the extraction, the fetch from the rendering server or the upload. *)
Inductive uml_fault (yml_body output_format : str) (e : exn) : Prop :=
| model_fault :
    uml_model_text yml_body = Err e ->
    uml_fault yml_body output_format e
| extraction_fault text :
    uml_model_text yml_body = Ok text ->
    extract_plantuml_code text = Err e ->
    uml_fault yml_body output_format e
| server_fault text code :
    uml_model_text yml_body = Ok text ->
    extract_plantuml_code text = Ok code ->
    get_diagram_from_server code output_format = Err e ->
    uml_fault yml_body output_format e
| storage_fault text code diagram :
    uml_model_text yml_body = Ok text ->
    extract_plantuml_code text = Ok code ->
    get_diagram_from_server code output_format = Ok diagram ->
    upload_to_s3 diagram (diagram_file_name output_format) = Err e ->
    uml_fault yml_body output_format e.

End Tools.

(** ** The specification's wording, as definitions of its own *)

Module Words.

(** The 64-symbol alphabet: digits, upper case, lower case, [-] and [_]. *)
Definition alphabet : str :=
  lit "0123456789ABCDEFGHIJKLMNOPQRSTUVWXYZabcdefghijklmnopqrstuvwxyz-_".

Definition symbol (k : Z) : Z := nth (Z.to_nat k) alphabet 0.

(** Bits [lo .. lo + n - 1] of [b], bit 0 being the least significant. *)
Definition bits (b lo n : Z) : Z := (b / 2 ^ lo) mod 2 ^ n.

(** [hi] followed by the [n] bits of [lo]. *)
Definition join (hi lo n : Z) : Z := hi * 2 ^ n + lo.

Definition symbol1 (byte0 : Z) : Z := bits byte0 2 6.
Definition symbol2 (byte0 byte1 : Z) : Z := join (bits byte0 0 2) (bits byte1 4 4) 4.
Definition symbol3 (byte1 byte2 : Z) : Z := join (bits byte1 0 4) (bits byte2 6 2) 2.
Definition symbol4 (byte2 : Z) : Z := bits byte2 0 6.

(** Three bytes at a time; a short final group is padded with zero bytes
    and emits only the symbols backed by real bytes. *)
Fixpoint pack (l : bytes) : str :=
  match l with
  | [] => []
  | [x0] =>
      let byte0 := byte_val x0 in
      [symbol (symbol1 byte0); symbol (symbol2 byte0 0)]
  | [x0; x1] =>
      let byte0 := byte_val x0 in
      let byte1 := byte_val x1 in
      [symbol (symbol1 byte0); symbol (symbol2 byte0 byte1);
       symbol (symbol3 byte1 0)]
  | x0 :: x1 :: x2 :: rest =>
      let byte0 := byte_val x0 in
      let byte1 := byte_val x1 in
      let byte2 := byte_val x2 in
      [symbol (symbol1 byte0); symbol (symbol2 byte0 byte1);
       symbol (symbol3 byte1 byte2); symbol (symbol4 byte2)]
      ++ pack rest
  end.

(** Delete every occurrence of a literal. *)
Definition delete (literal s : str) : str := Py.replace s literal [].

(** Step (1): delete the two marker literals, trim. *)
Definition normalise (s : str) : str :=
  Py.strip (delete enduml (delete startuml s)).

(** Step (2). *)
Definition wrap (body : str) : str := startuml ++ nl ++ body ++ nl ++ enduml.

(** Drop the last [n] items. *)
Definition drop_last {A : Type} (n : nat) (l : list A) : list A :=
  rev (skipn n (rev l)).

(** Step (4): the compressed stream without its first 2 and last 4 bytes. *)
Definition raw_deflate (zlib_compress : bytes -> bytes) (data : bytes) : bytes :=
  drop_last 4 (skipn 2 (zlib_compress data)).

(** Steps (1) to (5). *)
Definition token (zlib_compress : bytes -> bytes) (s : str) : result str :=
  data <- encode_utf8 (wrap (normalise s)) ;;
  Ok (pack (raw_deflate zlib_compress data)).

(** The token length the packing rule gives for [n] bytes. *)
Definition token_length (n : Z) : Z :=
  4 * (n / 3) + (if n mod 3 =? 0 then 0 else if n mod 3 =? 1 then 2 else 3).

(** The least position from [from] on at which [sub] occurs in [text]. *)
Definition occurrence (text sub : str) (from : nat) : option nat :=
  List.find (fun k => Py.startswith (skipn k text) sub)
            (seq from (S (List.length text) - from)).

(** The first marker of [markers] that occurs in [text]. *)
Definition first_present (markers : list str) (text : str) : option str :=
  List.find (fun m => match occurrence text m 0 with Some _ => true | None => false end)
            markers.

(** The position of the first marker of [markers], in their order, that
    occurs at or after [from]. *)
Fixpoint first_found (markers : list str) (text : str) (from : nat) : option nat :=
  match markers with
  | [] => None
  | m :: rest =>
      match occurrence text m from with
      | Some k => Some k
      | None => first_found rest text from
      end
  end.

(** The text between two positions. *)
Definition between {A : Type} (l : list A) (i j : nat) : list A :=
  firstn (j - i) (skipn i l).

(** Prepend and append the marker lines where they are missing. *)
Definition canonical (payload : str) : str :=
  let payload :=
    if Py.startswith payload startuml then payload
    else startuml ++ nl ++ payload in
  if Py.endswith payload enduml then payload else payload ++ nl ++ enduml.

(** The extraction as described: the first start marker present, its first
    occurrence, the first end marker found from there. *)
Definition described (text : str) : option str :=
  match first_present [fence_open; startuml] text with
  | None => None
  | Some marker =>
      match occurrence text marker 0 with
      | None => None
      | Some i =>
          let pos :=
            if str_eqb marker fence_open
            then (i + List.length marker)%nat else i in
          match first_found [fence_close; enduml] text pos with
          | None => None
          | Some j => Some (canonical (Py.strip (between text pos j)))
          end
      end
  end.

End Words.

(** A start marker and an end marker match [text] when the start marker
    occurs and the end marker occurs at or after the advanced position. *)
Definition advance (start_marker : str) (i : nat) : nat :=
  if str_eqb start_marker fence_open
  then (i + List.length start_marker)%nat else i.

Definition marker_match (text start_marker end_marker : str) : Prop :=
  exists i j,
    Words.occurrence text start_marker 0 = Some i /\
    Words.occurrence text end_marker (advance start_marker i) = Some j.

Definition extraction_error : exn :=
  Raise ValueErrorC
    (lit "Could not extract PlantUML code: No valid PlantUML code markers found").

(** One iteration of the packing loop on the running result. *)
Definition loop_step (compressed : bytes) (acc : result str) (i : Z) : result str :=
  encoded <- acc ;;
  encode_chunk (Py.slice compressed i (i + 3)) encoded.

(** Text that UTF-8 can encode: no code point is a surrogate. *)
Definition valid_text (s : str) : Prop :=
  Forall (fun c => is_surrogate c = false) s.

(** Membership in the token alphabet, by character class. *)
Definition token_char (c : Z) : bool :=
  ((48 <=? c) && (c <=? 57)) || ((65 <=? c) && (c <=? 90))
  || ((97 <=? c) && (c <=? 122)) || (c =? 45) || (c =? 95).

(** The block a start marker yields: from its advanced position to the
    first end marker found, if the marker occurs and an end marker follows. *)
Definition block_for (text start_marker : str) : option str :=
  match Words.occurrence text start_marker 0 with
  | None => None
  | Some i =>
      option_map
        (fun j =>
           Words.canonical
             (Py.strip (Words.between text (advance start_marker i) j)))
        (Words.first_found end_markers text (advance start_marker i))
  end.

(** The block of the first start marker, in their order, that yields one. *)
Fixpoint first_block (text : str) (markers : list str) : option str :=
  match markers with
  | [] => None
  | m :: rest =>
      match block_for text m with
      | Some code => Some code
      | None => first_block text rest
      end
  end.

(** The failure condition that looks only at the first start marker
    present: no start marker occurs, or that one has no end marker at or
    after its advanced position. *)
Definition first_marker_unmatched (text : str) : Prop :=
  (forall m, In m start_markers -> Words.occurrence text m 0 = None) \/
  (exists m i,
      Words.first_present start_markers text = Some m /\
      Words.occurrence text m 0 = Some i /\
      forall e, In e end_markers ->
                Words.occurrence text e (advance m i) = None).

(** [s] begins with a character that is not white space. *)
Definition starts_with_text (s : str) : bool :=
  match s with
  | [] => false
  | c :: _ => negb (Py.isspace c)
  end.

(** [s] contains none of the four marker and fence literals. *)
Definition marker_free (s : str) : Prop :=
  forall m, In m (start_markers ++ end_markers) -> Py.contains s m = false.

(** A text whose fenced opener comes last, after a bare block. *)
Definition fallback_text : str := lit "@startuml
A
@enduml
```plantuml".

(** The fenced block of the specification's first scenario. *)
Definition fenced_text : str := lit "```plantuml
@startuml
A->B: hi
@enduml
``` ".

Definition canonical_text : str := lit "@startuml
A->B: hi
@enduml".

(** ** Reading a result, and collaborators to run the tools on *)

(** The value of a field of a dictionary. *)
Definition field (key : string) (v : json) : option json :=
  match v with
  | JDict fields => lookup key fields
  | _ => None
  end.

Definition field_names (v : json) : list string :=
  match v with
  | JDict fields => keys fields
  | _ => []
  end.

(** Two results carry the same field names, the [error] key apart. *)
Definition same_field_names (a b : json) : Prop :=
  forall k, k <> "error" -> (In k (field_names a) <-> In k (field_names b)).

Definition error_result (e : exn) : json :=
  JDict [("error", JStr (exn_str e)); ("codeBody", JNull); ("diagramUri", JNull)].

Module Sample.

(** [json.dumps] with its defaults, for the values [json] has; a float is
    carried by its [repr]. *)
Definition escape (c : Z) : str :=
  if c =? 34 then [92; 34]
  else if c =? 92 then [92; 92]
  else if c =? 10 then [92; 110]
  else if c =? 13 then [92; 114]
  else if c =? 9 then [92; 116]
  else if c =? 8 then [92; 98]
  else if c =? 12 then [92; 102]
  else if (32 <=? c) && (c <=? 126) then [c]
  else if c <? 65536 then [92; 117] ++ hex4 c
  else
    let v := c - 65536 in
    [92; 117] ++ hex4 (Z.lor 55296 (Z.shiftr v 10))
    ++ [92; 117] ++ hex4 (Z.lor 56320 (Z.land v 1023)).

Definition dumps_str (s : str) : str := [34] ++ flat_map escape s ++ [34].

Fixpoint dumps (v : json) : str :=
  match v with
  | JNull => lit "null"
  | JBool b => if b then lit "true" else lit "false"
  | JInt n => Py.str_of_int n
  | JFloat repr => repr
  | JStr s => dumps_str s
  | JList items =>
      lit "["
      ++ (fix go (l : list json) : str :=
            match l with
            | [] => []
            | [x] => dumps x
            | x :: rest => dumps x ++ lit ", " ++ go rest
            end) items
      ++ lit "]"
  | JDict fields =>
      lit "{"
      ++ (fix go (l : list (string * json)) : str :=
            match l with
            | [] => []
            | [(k, x)] => dumps_str (lit k) ++ lit ": " ++ dumps x
            | (k, x) :: rest =>
                dumps_str (lit k) ++ lit ": " ++ dumps x ++ lit ", " ++ go rest
            end) fields
      ++ lit "}"
  end.

Definition model_ok (model_id body : str) : result str := Ok fenced_text.

Definition model_down (model_id body : str) : result str :=
  Err (Raise ExceptionC (lit "model unavailable")).

Definition http_ok (method url : str) : result http_response :=
  Ok (Response 200 (map byte_of [137; 80; 78; 71])).

Definition http_404 (method url : str) : result http_response :=
  Ok (Response 404 []).

Definition retrieve_ok (kb_id query : str) (max_results : Z) : result json :=
  Ok (JDict
        [("retrievalResults",
          JList [JDict [("content", JDict [("text", JStr (lit "paths: /pets"))]);
                        ("score", JFloat (lit "0.5"))]])]).

(** Every service answers. *)
Definition up : services :=
  {| compress := Stored.compress;
     json_dumps := dumps;
     invoke_model_text := model_ok;
     retrieve := retrieve_ok;
     http_request := http_ok;
     uuid4 := lit "123e4567-e89b-42d3-a456-426614174000";
     region_name := Some (lit "eu-west-1");
     get_caller_identity_account := Ok (lit "123456789012");
     head_bucket := fun _ => Ok tt;
     create_bucket := fun _ _ => Ok tt;
     put_object := fun _ _ _ _ => Ok tt |}.

(** The rendering server answers 404. *)
Definition server_404 : services :=
  {| compress := compress up;
     json_dumps := json_dumps up;
     invoke_model_text := invoke_model_text up;
     retrieve := retrieve up;
     http_request := http_404;
     uuid4 := uuid4 up;
     region_name := region_name up;
     get_caller_identity_account := get_caller_identity_account up;
     head_bucket := head_bucket up;
     create_bucket := create_bucket up;
     put_object := put_object up |}.

(** The model cannot be reached. *)
Definition no_model : services :=
  {| compress := compress up;
     json_dumps := json_dumps up;
     invoke_model_text := model_down;
     retrieve := retrieve up;
     http_request := http_request up;
     uuid4 := uuid4 up;
     region_name := region_name up;
     get_caller_identity_account := get_caller_identity_account up;
     head_bucket := head_bucket up;
     create_bucket := create_bucket up;
     put_object := put_object up |}.

End Sample.

(** What [zlib.compress] returns for the UTF-8 bytes of [canonical_text],
    as recorded from CPython's zlib at its default level. *)
Definition recorded_data : bytes :=
  map byte_of
    [64; 115; 116; 97; 114; 116; 117; 109; 108; 10; 65; 45; 62; 66; 58; 32;
     104; 105; 10; 64; 101; 110; 100; 117; 109; 108].

Definition recorded_stream : bytes :=
  map byte_of
    [120; 156; 115; 40; 46; 73; 44; 42; 41; 205; 205; 225; 114; 212; 181;
     115; 178; 82; 200; 200; 228; 114; 72; 205; 75; 1; 10; 0; 0; 118; 76; 8;
     175].

(** ** Reading a token back *)

Module Decode.

(** The index of a character in the alphabet. *)
Fixpoint position_from (c : Z) (l : str) (k : Z) : option Z :=
  match l with
  | [] => None
  | x :: l' => if x =? c then Some k else position_from c l' (k + 1)
  end.

Definition position (c : Z) : option Z := position_from c base64_chars 0.

(** The bytes four 6-bit values hold. *)
Definition byte0 (s1 s2 : Z) : Z := s1 * 4 + s2 / 16.
Definition byte1 (s2 s3 : Z) : Z := (s2 mod 16) * 16 + s3 / 4.
Definition byte2 (s3 s4 : Z) : Z := (s3 mod 4) * 64 + s4.

Definition positions (l : str) : option (list Z) :=
  fold_right
    (fun c acc =>
       match position c, acc with
       | Some k, Some ks => Some (k :: ks)
       | _, _ => None
       end)
    (Some []) l.

(** Four symbols give three bytes; a last group of two or three symbols
    gives one or two. *)
Fixpoint unpack_values (l : list Z) : option bytes :=
  match l with
  | [] => Some []
  | [_] => None
  | [s1; s2] => Some [byte_of (byte0 s1 s2)]
  | [s1; s2; s3] => Some [byte_of (byte0 s1 s2); byte_of (byte1 s2 s3)]
  | s1 :: s2 :: s3 :: s4 :: rest =>
      match unpack_values rest with
      | Some tail =>
          Some (byte_of (byte0 s1 s2) :: byte_of (byte1 s2 s3)
                :: byte_of (byte2 s3 s4) :: tail)
      | None => None
      end
  end.

Definition unpack (token : str) : option bytes :=
  match positions token with
  | Some values => unpack_values values
  | None => None
  end.

End Decode.

(** The 6-bit values behind the symbols of [Words.pack]. *)
Fixpoint pack_values (l : bytes) : list Z :=
  match l with
  | [] => []
  | [x0] =>
      [Words.symbol1 (byte_val x0); Words.symbol2 (byte_val x0) 0]
  | [x0; x1] =>
      [Words.symbol1 (byte_val x0);
       Words.symbol2 (byte_val x0) (byte_val x1);
       Words.symbol3 (byte_val x1) 0]
  | x0 :: x1 :: x2 :: rest =>
      Words.symbol1 (byte_val x0)
      :: Words.symbol2 (byte_val x0) (byte_val x1)
      :: Words.symbol3 (byte_val x1) (byte_val x2)
      :: Words.symbol4 (byte_val x2) :: pack_values rest
  end.

(** ** The rendering server and the object store *)

Definition diagram_url (output_format encoded : str) : str :=
  PLANTUML_SERVER ++ lit "/" ++ output_format ++ lit "/" ++ encoded.

(** The name [get_default_bucket] builds, and the configuration it creates
    a missing bucket with. *)
Definition default_bucket_name (env : services) (account : str) : str :=
  lit "sagemaker-" ++ format_region (region_name env) ++ lit "-" ++ account.

Definition bucket_configuration (region : option str) : json :=
  if negb (region_is region (lit "us-east-1"))
  then JDict [("LocationConstraint",
               match region with
               | Some r => JStr r
               | None => JNull
               end)]
  else JDict [].

(** The items [search_knowledge_base] iterates over: what iteration over
    [response.get('retrievalResults', [])] visits. *)
Definition retrieved_items (response : json) : result (list json) :=
  found <- py_get response "retrievalResults" (JList []) ;;
  py_iter found.

Definition is_dict (v : json) : bool :=
  match v with
  | JDict _ => true
  | _ => false
  end.

Module SampleSearch.

Definition retrieve_mixed (kb_id query : str) (max_results : Z) : result json :=
  Ok (JDict
        [("retrievalResults",
          JList [JDict [("content", JDict [("text", JStr (lit "paths: /pets"))])];
                 JStr (lit "throttled")])]).

(** The retrieval answers with an item that is not a dictionary. *)
Definition mixed : services :=
  {| compress := compress Sample.up;
     json_dumps := json_dumps Sample.up;
     invoke_model_text := invoke_model_text Sample.up;
     retrieve := retrieve_mixed;
     http_request := http_request Sample.up;
     uuid4 := uuid4 Sample.up;
     region_name := region_name Sample.up;
     get_caller_identity_account := get_caller_identity_account Sample.up;
     head_bucket := head_bucket Sample.up;
     create_bucket := create_bucket Sample.up;
     put_object := put_object Sample.up |}.

Definition retrieve_bare (kb_id query : str) (max_results : Z) : result json :=
  Ok (JDict [("ResponseMetadata", JDict [])]).

(** The retrieval answers without a [retrievalResults] key. *)
Definition bare : services :=
  {| compress := compress Sample.up;
     json_dumps := json_dumps Sample.up;
     invoke_model_text := invoke_model_text Sample.up;
     retrieve := retrieve_bare;
     http_request := http_request Sample.up;
     uuid4 := uuid4 Sample.up;
     region_name := region_name Sample.up;
     get_caller_identity_account := get_caller_identity_account Sample.up;
     head_bucket := head_bucket Sample.up;
     create_bucket := create_bucket Sample.up;
     put_object := put_object Sample.up |}.

End SampleSearch.

(** The two placeholders of the prompt templates. *)
Definition YAML_FILE : str := lit "{YAML_FILE}".
Definition USER_QUERY : str := lit "{USER_QUERY}".

(** [d.get(key, default)] on the fields of a dictionary. *)
Definition get_or (key : string) (fields : list (string * json))
    (default : json) : json :=
  match lookup key fields with
  | Some v => v
  | None => default
  end.

(** * Proofs *)

(** ** Bytes and bit fields *)

Lemma byte_val_range (b : Byte.byte) : 0 <= byte_val b < 256.
Proof.
  unfold byte_val. pose proof (Byte.to_N_bounded b). lia.
Qed.

Lemma land_shifted_small (a b n : Z) :
  0 <= n -> 0 <= b < 2 ^ n -> Z.land (a * 2 ^ n) b = 0.
Proof.
  intros Hn Hb. apply Z.bits_inj'. intros i Hi.
  rewrite Z.land_spec, Z.bits_0.
  destruct (Z.lt_ge_cases i n) as [Hlt | Hge].
  - rewrite Z.mul_pow2_bits_low by lia. reflexivity.
  - destruct (Z.eq_dec b 0) as [-> | Hb0].
    + rewrite Z.bits_0. apply andb_false_r.
    + rewrite (Z.bits_above_log2 b i); [apply andb_false_r | lia |].
      apply Z.lt_le_trans with n; [| exact Hge].
      apply Z.log2_lt_pow2; lia.
Qed.

Lemma lor_shiftl_small (a b n : Z) :
  0 <= n -> 0 <= b < 2 ^ n -> Z.lor (Z.shiftl a n) b = a * 2 ^ n + b.
Proof.
  intros Hn Hb. rewrite Z.shiftl_mul_pow2 by exact Hn.
  pose proof (land_shifted_small a b n Hn Hb) as H0.
  rewrite <- Z.lxor_lor by exact H0.
  symmetry. apply Z.add_nocarry_lxor. exact H0.
Qed.

Lemma land_low (x n : Z) : 0 <= n -> Z.land x (Z.ones n) = Words.bits x 0 n.
Proof.
  intros Hn. unfold Words.bits. rewrite Z.land_ones by exact Hn.
  rewrite Z.pow_0_r, Z.div_1_r. reflexivity.
Qed.

Lemma bits_bound (b lo n : Z) : 0 <= n -> 0 <= Words.bits b lo n < 2 ^ n.
Proof.
  intros Hn. unfold Words.bits. apply Z.mod_pos_bound.
  apply Z.pow_pos_nonneg; lia.
Qed.

Lemma shiftr_high (x lo n : Z) :
  0 <= lo -> 0 <= n -> 0 <= x < 2 ^ (lo + n) -> Z.shiftr x lo = Words.bits x lo n.
Proof.
  intros Hlo Hn Hx. unfold Words.bits.
  rewrite Z.shiftr_div_pow2 by exact Hlo.
  symmetry. apply Z.mod_small. split.
  - apply Z.div_pos; [lia | apply Z.pow_pos_nonneg; lia].
  - apply Z.div_lt_upper_bound; [apply Z.pow_pos_nonneg; lia |].
    rewrite <- Z.pow_add_r by lia. lia.
Qed.

(** The four values the loop body computes are the four bit fields. *)
Lemma b1_field (x0 : Z) :
  0 <= x0 < 256 -> Z.shiftr x0 2 = Words.symbol1 x0.
Proof.
  intros H. unfold Words.symbol1. apply shiftr_high; simpl; lia.
Qed.

Lemma b2_field (x0 x1 : Z) :
  0 <= x1 < 256 ->
  Z.lor (Z.shiftl (Z.land x0 3) 4) (Z.shiftr x1 4) = Words.symbol2 x0 x1.
Proof.
  intros H1. unfold Words.symbol2, Words.join.
  change 3 with (Z.ones 2). rewrite land_low by lia.
  rewrite (shiftr_high x1 4 4) by (simpl; lia).
  apply lor_shiftl_small; [lia | apply bits_bound; lia].
Qed.

Lemma b3_field (x1 x2 : Z) :
  0 <= x2 < 256 ->
  Z.lor (Z.shiftl (Z.land x1 15) 2) (Z.shiftr x2 6) = Words.symbol3 x1 x2.
Proof.
  intros H2. unfold Words.symbol3, Words.join.
  change 15 with (Z.ones 4). rewrite land_low by lia.
  rewrite (shiftr_high x2 6 2) by (simpl; lia).
  apply lor_shiftl_small; [lia | apply bits_bound; lia].
Qed.

Lemma b4_field (x2 : Z) : Z.land x2 63 = Words.symbol4 x2.
Proof.
  unfold Words.symbol4. change 63 with (Z.ones 6). apply land_low. lia.
Qed.

Lemma symbol1_bound (x : Z) : 0 <= Words.symbol1 x < 64.
Proof. apply (bits_bound x 2 6). lia. Qed.

Lemma symbol2_bound (x y : Z) : 0 <= Words.symbol2 x y < 64.
Proof.
  unfold Words.symbol2, Words.join.
  pose proof (bits_bound x 0 2). pose proof (bits_bound y 4 4).
  change (2 ^ 2) with 4 in *. change (2 ^ 4) with 16 in *. lia.
Qed.

Lemma symbol3_bound (x y : Z) : 0 <= Words.symbol3 x y < 64.
Proof.
  unfold Words.symbol3, Words.join.
  pose proof (bits_bound x 0 4). pose proof (bits_bound y 6 2).
  change (2 ^ 2) with 4 in *. change (2 ^ 4) with 16 in *. lia.
Qed.

Lemma symbol4_bound (x : Z) : 0 <= Words.symbol4 x < 64.
Proof. apply (bits_bound x 0 6). lia. Qed.

(** ** Indexing and slicing *)

Lemma len_nonneg {A : Type} (l : list A) : 0 <= len l.
Proof. unfold len. lia. Qed.

Lemma len_cons {A : Type} (x : A) (l : list A) : len (x :: l) = len l + 1.
Proof. unfold len. simpl List.length. lia. Qed.

Lemma len_app {A : Type} (l1 l2 : list A) : len (l1 ++ l2) = len l1 + len l2.
Proof. unfold len. rewrite length_app. lia. Qed.

Lemma adjust_inside (n i : Z) : 0 <= i <= n -> Py.adjust n i = i.
Proof.
  intros H. unfold Py.adjust.
  destruct (Z.ltb_spec i 0); lia.
Qed.

Lemma adjust_beyond (n i : Z) : 0 <= n <= i -> Py.adjust n i = n.
Proof.
  intros H. unfold Py.adjust.
  destruct (Z.ltb_spec i 0); lia.
Qed.

Lemma getitem_inside {A : Type} (what : string) (l : list A) (i : Z) (d : A) :
  0 <= i < len l -> getitem what l i = Ok (nth (Z.to_nat i) l d).
Proof.
  intros H. unfold getitem.
  destruct (Z.ltb_spec i 0) as [Hneg | _]; [lia |].
  destruct (Z.ltb_spec i 0) as [Hneg | _]; [lia |].
  rewrite (nth_error_nth' l d); [reflexivity |].
  unfold len in H. lia.
Qed.

Lemma alphabet_getitem (k : Z) :
  0 <= k < 64 -> getitem "string" base64_chars k = Ok (Words.symbol k).
Proof.
  intros H. unfold Words.symbol.
  apply (getitem_inside "string" base64_chars k 0).
  change (len base64_chars) with 64. exact H.
Qed.

Lemma symbol_in_alphabet (k : Z) :
  0 <= k < 64 -> In (Words.symbol k) base64_chars.
Proof.
  intros H. unfold Words.symbol. change Words.alphabet with base64_chars.
  apply nth_In. change (List.length base64_chars) with 64%nat. lia.
Qed.

(** A window of three starting where [pre] ends. *)
Lemma slice_window {A : Type} (pre rest : list A) :
  Py.slice (pre ++ rest) (len pre) (len pre + 3) = firstn 3 rest.
Proof.
  unfold Py.slice. rewrite len_app.
  pose proof (len_nonneg pre) as Hp. pose proof (len_nonneg rest) as Hr.
  rewrite (adjust_inside _ (len pre)) by lia.
  replace (Z.to_nat (len pre)) with (List.length pre) by (unfold len; lia).
  rewrite skipn_app, skipn_all, Nat.sub_diag. cbn [skipn app].
  destruct (Z.le_gt_cases 3 (len rest)) as [Hge | Hlt].
  - rewrite adjust_inside by lia.
    replace (Z.to_nat (len pre + 3 - len pre)) with 3%nat by lia.
    reflexivity.
  - rewrite adjust_beyond by lia.
    replace (Z.to_nat (len pre + len rest - len pre)) with (List.length rest)
      by (unfold len; lia).
    rewrite firstn_all. symmetry. apply firstn_all2. unfold len in Hlt. lia.
Qed.

(** [l[2:-4]] drops two items in front and four at the end. *)
Lemma slice_frame {A : Type} (l : list A) :
  Py.slice l 2 (-4) = Words.drop_last 4 (skipn 2 l).
Proof.
  unfold Py.slice, Words.drop_last.
  pose proof (len_nonneg l) as Hl.
  assert (Hflip : forall (m : list A),
             rev (skipn 4 (rev m)) = firstn (List.length m - 4) m).
  { intros m. rewrite skipn_rev, rev_involutive. reflexivity. }
  rewrite Hflip, length_skipn.
  change (Py.adjust (len l) (-4)) with (Z.max (-4 + len l) 0).
  destruct (Z.le_gt_cases 2 (len l)) as [H2 | H2].
  - rewrite (adjust_inside (len l) 2) by lia.
    change (Z.to_nat 2) with 2%nat. f_equal. unfold len in *. lia.
  - rewrite (adjust_beyond (len l) 2) by lia.
    rewrite !skipn_all2 by (unfold len in *; lia).
    rewrite !firstn_nil. reflexivity.
Qed.

(** ** The packing loop *)

(** Induction on lists three items at a time. *)
Lemma list_ind3 {A : Type} (P : list A -> Prop) :
  P [] ->
  (forall a, P [a]) ->
  (forall a b, P [a; b]) ->
  (forall a b c rest, P rest -> P (a :: b :: c :: rest)) ->
  forall l, P l.
Proof.
  intros H0 H1 H2 H3.
  refine (fix go (l : list A) : P l :=
            match l with
            | [] => H0
            | [a] => H1 a
            | [a; b] => H2 a b
            | a :: b :: c :: rest => H3 a b c rest (go rest)
            end).
Qed.

Ltac chunk_fields :=
  repeat match goal with
         | x : Byte.byte |- _ =>
             lazymatch goal with
             | H : 0 <= byte_val x < 256 |- _ => fail
             | _ => pose proof (byte_val_range x)
             end
         end.

Lemma getitem3 {A : Type} (a b c : A) :
  getitem "list" [a; b; c] 0 = Ok a /\
  getitem "list" [a; b; c] 1 = Ok b /\
  getitem "list" [a; b; c] 2 = Ok c.
Proof. repeat split. Qed.

Ltac chunk_start padded n :=
  chunk_fields; unfold encode_chunk; cbv zeta;
  match goal with
  | |- context [map byte_val ?c ++ repeat 0 ?k] =>
      change (map byte_val c ++ repeat 0 k) with padded;
      change (len c) with n
  end;
  destruct (getitem3 (nth 0 padded 0) (nth 1 padded 0) (nth 2 padded 0))
    as (G0 & G1 & G2);
  cbn [nth] in G0, G1, G2; rewrite ?G0, ?G1, ?G2; cbn [bind].

Lemma encode_chunk_one (x0 : Byte.byte) (encoded : str) :
  encode_chunk [x0] encoded = Ok (encoded ++ Words.pack [x0]).
Proof.
  chunk_start [byte_val x0; 0; 0] 1.
  rewrite b1_field, (b2_field _ 0) by lia.
  rewrite (alphabet_getitem _ (symbol1_bound _)).
  rewrite (alphabet_getitem _ (symbol2_bound _ _)).
  reflexivity.
Qed.

Lemma encode_chunk_two (x0 x1 : Byte.byte) (encoded : str) :
  encode_chunk [x0; x1] encoded = Ok (encoded ++ Words.pack [x0; x1]).
Proof.
  chunk_start [byte_val x0; byte_val x1; 0] 2.
  rewrite b1_field, b2_field, (b3_field _ 0) by lia.
  rewrite (alphabet_getitem _ (symbol1_bound _)).
  rewrite (alphabet_getitem _ (symbol2_bound _ _)).
  rewrite (alphabet_getitem _ (symbol3_bound _ _)).
  cbn [bind Words.pack Z.ltb Z.compare Pos.compare Pos.compare_cont].
  rewrite <- !app_assoc. reflexivity.
Qed.

Lemma encode_chunk_three (x0 x1 x2 : Byte.byte) (encoded : str) :
  encode_chunk [x0; x1; x2] encoded = Ok (encoded ++ Words.pack [x0; x1; x2]).
Proof.
  chunk_start [byte_val x0; byte_val x1; byte_val x2] 3.
  rewrite b1_field, b2_field, b3_field, b4_field by lia.
  rewrite (alphabet_getitem _ (symbol1_bound _)).
  rewrite (alphabet_getitem _ (symbol2_bound _ _)).
  rewrite (alphabet_getitem _ (symbol3_bound _ _)).
  rewrite (alphabet_getitem _ (symbol4_bound _)).
  cbn [bind Words.pack Z.ltb Z.compare Pos.compare Pos.compare_cont].
  rewrite <- !app_assoc. reflexivity.
Qed.

Lemma chunk_count_step {A : Type} (a b c : A) (rest : list A) :
  Z.to_nat ((len (a :: b :: c :: rest) + 2) / 3)
  = S (Z.to_nat ((len rest + 2) / 3)).
Proof.
  rewrite !len_cons. pose proof (len_nonneg rest).
  replace (len rest + 1 + 1 + 1 + 2) with (len rest + 2 + 1 * 3) by lia.
  rewrite Z.div_add by lia.
  assert (0 <= (len rest + 2) / 3) by (apply Z.div_pos; lia).
  lia.
Qed.

Lemma pack_three (a b c : Byte.byte) (rest : bytes) :
  Words.pack (a :: b :: c :: rest) = Words.pack [a; b; c] ++ Words.pack rest.
Proof. reflexivity. Qed.

Lemma loop_from (rest pre : bytes) :
  forall acc,
    fold_left (loop_step (pre ++ rest))
      (map (fun k => len pre + 3 * Z.of_nat k)
           (seq 0 (Z.to_nat ((len rest + 2) / 3))))
      (Ok acc)
    = Ok (acc ++ Words.pack rest).
Proof.
  revert pre. induction rest as [| a | a b | a b c rest IH] using list_ind3;
    intros pre acc.
  - cbn. rewrite app_nil_r. reflexivity.
  - change (Z.to_nat ((len [a] + 2) / 3)) with 1%nat.
    cbn [seq map fold_left Z.of_nat]. rewrite Z.mul_0_r, Z.add_0_r.
    unfold loop_step; cbn [bind].
    rewrite slice_window. apply encode_chunk_one.
  - change (Z.to_nat ((len [a; b] + 2) / 3)) with 1%nat.
    cbn [seq map fold_left Z.of_nat]. rewrite Z.mul_0_r, Z.add_0_r.
    unfold loop_step; cbn [bind].
    rewrite slice_window. apply encode_chunk_two.
  - rewrite chunk_count_step.
    cbn [seq map fold_left]. rewrite <- seq_shift, map_map.
    change (Z.of_nat 0) with 0. rewrite Z.mul_0_r, Z.add_0_r.
    unfold loop_step at 2; cbn [bind].
    rewrite slice_window. cbn [firstn]. rewrite encode_chunk_three.
    replace (pre ++ a :: b :: c :: rest) with ((pre ++ [a; b; c]) ++ rest)
      by (rewrite <- app_assoc; reflexivity).
    rewrite (map_ext _ (fun k => len (pre ++ [a; b; c]) + 3 * Z.of_nat k)).
    + rewrite IH, (pack_three a b c rest), app_assoc. reflexivity.
    + intros k. rewrite len_app. change (len [a; b; c]) with 3. lia.
Qed.

Lemma encode_loop_pack (compressed : bytes) :
  encode_loop compressed = Ok (Words.pack compressed).
Proof.
  unfold encode_loop, range.
  replace (len compressed - 0 + 3 - 1) with (len compressed + 2) by lia.
  exact (loop_from compressed [] []).
Qed.

Lemma pack_length (l : bytes) : len (Words.pack l) = Words.token_length (len l).
Proof.
  induction l as [| a | a b | a b c rest IH] using list_ind3;
    try reflexivity.
  rewrite (pack_three a b c rest), len_app, IH, !len_cons.
  change (len (Words.pack [a; b; c])) with 4.
  unfold Words.token_length.
  replace (len rest + 1 + 1 + 1) with (len rest + 1 * 3) by lia.
  rewrite Z.div_add, Z.mod_add by lia. lia.
Qed.

Lemma pack_alphabet (l : bytes) :
  Forall (fun c => In c base64_chars) (Words.pack l).
Proof.
  induction l as [| a | a b | a b c rest IH] using list_ind3;
    cbn [Words.pack app];
    repeat (apply Forall_cons;
            [apply symbol_in_alphabet;
             first [apply symbol1_bound | apply symbol2_bound
                   | apply symbol3_bound | apply symbol4_bound] |]);
    try exact IH; constructor.
Qed.

(** ** Prefixes, replacement and trimming *)

Lemma startswith_app (p t : str) : Py.startswith (p ++ t) p = true.
Proof.
  induction p as [| x p IH]; [reflexivity |].
  cbn [app Py.startswith]. rewrite Z.eqb_refl, IH. reflexivity.
Qed.

Lemma startswith_inv (s p : str) :
  Py.startswith s p = true -> exists t, s = p ++ t.
Proof.
  revert s. induction p as [| x p IH]; intros s H.
  - exists s. reflexivity.
  - destruct s as [| y s]; [discriminate |].
    cbn [Py.startswith] in H. apply andb_prop in H as [Hxy Hs].
    apply Z.eqb_eq in Hxy. subst y.
    destruct (IH s Hs) as [t ->]. exists t. reflexivity.
Qed.

Lemma replace_nonempty (s old new : str) :
  old <> [] -> Py.replace s old new = Py.replace_scan old new 0 s.
Proof. destruct old; [congruence | reflexivity]. Qed.

Lemma replace_scan_skip (old new u v : str) :
  Py.replace_scan old new (List.length u) (u ++ v) = Py.replace_scan old new 0 v.
Proof.
  induction u as [| c u IH]; [destruct v; reflexivity | exact IH].
Qed.

Lemma replace_scan_match (old new t : str) :
  old <> [] ->
  Py.replace_scan old new 0 (old ++ t) = new ++ Py.replace_scan old new 0 t.
Proof.
  intros Hold. destruct old as [| c old]; [congruence |].
  change ((c :: old) ++ t) with (c :: (old ++ t)).
  cbn [Py.replace_scan].
  change (c :: old ++ t) with ((c :: old) ++ t).
  rewrite startswith_app. cbn [List.length pred].
  rewrite replace_scan_skip. reflexivity.
Qed.

Lemma replace_scan_pass (old new : str) (c : Z) (s : str) :
  Py.startswith (c :: s) old = false ->
  Py.replace_scan old new 0 (c :: s) = c :: Py.replace_scan old new 0 s.
Proof.
  intros H. cbn [Py.replace_scan]. rewrite H. reflexivity.
Qed.

(** A literal that lies across [x ++ sep :: y] without containing [sep]
    lies inside [x]. *)
Lemma prefix_before_sep (old x y t : str) (sep : Z) :
  ~ In sep old -> x ++ sep :: y = old ++ t ->
  exists x', x = old ++ x' /\ t = x' ++ sep :: y.
Proof.
  revert x. induction old as [| c old IH]; intros x Hsep H.
  - exists x. split; [reflexivity | symmetry; exact H].
  - destruct x as [| d x].
    + cbn in H. injection H as Hc _. subst c. exfalso. apply Hsep. left. reflexivity.
    + cbn in H. injection H as Hc H. subst d.
      destruct (IH x) as (x' & -> & ->); [| exact H |].
      * intros Hin. apply Hsep. right. exact Hin.
      * exists x'. split; reflexivity.
Qed.

(** Replacement does not see across a character the literal lacks. *)
Lemma replace_scan_sep (old new : str) (sep : Z) (y : str) :
  old <> [] -> ~ In sep old ->
  forall x,
    Py.replace_scan old new 0 (x ++ sep :: y)
    = Py.replace_scan old new 0 x ++ sep :: Py.replace_scan old new 0 y.
Proof.
  intros Hold Hsep x.
  remember (List.length x) as n eqn:Hn. revert x Hn.
  induction n as [n IH] using lt_wf_ind. intros x Hn.
  destruct x as [| c x].
  - cbn [app]. apply replace_scan_pass.
    destruct old as [| o old]; [congruence |].
    cbn [Py.startswith].
    destruct (Z.eqb_spec o sep) as [-> | _]; [| reflexivity].
    exfalso. apply Hsep. left. reflexivity.
  - destruct (Py.startswith ((c :: x) ++ sep :: y) old) eqn:Hst.
    + apply startswith_inv in Hst as [t Ht].
      destruct (prefix_before_sep old (c :: x) y t sep Hsep Ht) as (x' & Hx & ->).
      rewrite Ht, Hx, !replace_scan_match by exact Hold.
      rewrite <- app_assoc. f_equal.
      apply (IH (List.length x')); [| reflexivity].
      subst n. rewrite Hx, length_app.
      destruct old; [congruence | cbn; lia].
    + change ((c :: x) ++ sep :: y) with (c :: (x ++ sep :: y)) in *.
      rewrite replace_scan_pass by exact Hst.
      rewrite replace_scan_pass.
      * cbn [app]. f_equal. apply (IH (List.length x)); [| reflexivity].
        subst n. cbn. lia.
      * destruct (Py.startswith (c :: x) old) eqn:Hx; [| reflexivity].
        apply startswith_inv in Hx as [t Ht].
        change (c :: x ++ sep :: y) with ((c :: x) ++ sep :: y) in Hst.
        rewrite Ht, <- app_assoc, startswith_app in Hst. discriminate.
Qed.

Lemma lstrip_space (c : Z) (s : str) :
  Py.isspace c = true -> Py.lstrip (c :: s) = Py.lstrip s.
Proof. intros H. cbn [Py.lstrip]. rewrite H. reflexivity. Qed.

Lemma rstrip_space (c : Z) (s : str) :
  Py.isspace c = true -> Py.rstrip (s ++ [c]) = Py.rstrip s.
Proof.
  intros H. unfold Py.rstrip. rewrite rev_unit, lstrip_space by exact H.
  reflexivity.
Qed.

Lemma strip_trailing_space (c : Z) (s : str) :
  Py.isspace c = true -> Py.strip (s ++ [c]) = Py.strip s.
Proof.
  intros H. unfold Py.strip. induction s as [| a s IH].
  - cbn [app]. rewrite lstrip_space by exact H. reflexivity.
  - cbn [app Py.lstrip]. destruct (Py.isspace a); [exact IH |].
    apply (rstrip_space c (a :: s) H).
Qed.

Lemma strip_between_newlines (t : str) :
  Py.strip (10 :: t ++ [10]) = Py.strip t.
Proof.
  change (10 :: t ++ [10]) with ((10 :: t) ++ [10]).
  rewrite strip_trailing_space by reflexivity.
  unfold Py.strip. rewrite lstrip_space by reflexivity. reflexivity.
Qed.

Lemma rewrap_wrapped (s : str) :
  rewrap (startuml ++ nl ++ s ++ nl ++ enduml) = rewrap s.
Proof.
  unfold rewrap. do 2 f_equal. f_equal.
  assert (Hs : startuml <> []) by discriminate.
  assert (He : enduml <> []) by discriminate.
  assert (Hns : ~ In 10 startuml) by (vm_compute; intuition discriminate).
  assert (Hne : ~ In 10 enduml) by (vm_compute; intuition discriminate).
  rewrite !replace_nonempty by assumption.
  change (startuml ++ nl ++ s ++ nl ++ enduml)
    with (startuml ++ 10 :: (s ++ 10 :: enduml)).
  rewrite !(replace_scan_sep startuml) by assumption.
  change (Py.replace_scan startuml [] 0 startuml) with (@nil Z).
  change (Py.replace_scan startuml [] 0 enduml) with enduml.
  cbn [app].
  change (10 :: Py.replace_scan startuml [] 0 s ++ 10 :: enduml)
    with ([] ++ 10 :: (Py.replace_scan startuml [] 0 s ++ 10 :: enduml)).
  rewrite !(replace_scan_sep enduml) by assumption.
  change (Py.replace_scan enduml [] 0 enduml) with (@nil Z).
  change (Py.replace_scan enduml [] 0 []) with (@nil Z).
  cbn [app]. apply strip_between_newlines.
Qed.

(** ** Encodable text *)

Lemma encode_utf8_from_total (s : str) :
  valid_text s -> forall pos, exists data, encode_utf8_from pos s = Ok data.
Proof.
  induction 1 as [| c s Hc _ IH]; intros pos.
  - exists []. reflexivity.
  - destruct (IH (pos + 1)) as [rest Hrest].
    exists (map byte_of (utf8_char c) ++ rest).
    cbn [encode_utf8_from]. rewrite Hc, Hrest. reflexivity.
Qed.

Lemma replace_scan_delete_incl (old s : str) :
  forall k c, In c (Py.replace_scan old [] k s) -> In c s.
Proof.
  induction s as [| d s IH]; intros k c H; [exact H |].
  cbn [Py.replace_scan] in H. destruct k as [| k].
  - destruct (Py.startswith (d :: s) old).
    + right. exact (IH _ _ H).
    + destruct H as [-> | H]; [left; reflexivity | right; exact (IH _ _ H)].
  - right. exact (IH _ _ H).
Qed.

Lemma replace_delete_incl (s old : str) (c : Z) :
  In c (Py.replace s old []) -> In c s.
Proof.
  destruct old as [| o old].
  - cbn [Py.replace app]. induction s as [| d s IH]; [intros [] |].
    cbn. intros [-> | H]; [left; reflexivity | right; exact (IH H)].
  - apply replace_scan_delete_incl.
Qed.

Lemma lstrip_incl (s : str) (c : Z) : In c (Py.lstrip s) -> In c s.
Proof.
  induction s as [| d s IH]; [intros [] |].
  cbn [Py.lstrip]. destruct (Py.isspace d); [| intros H; exact H].
  intros H. right. exact (IH H).
Qed.

Lemma strip_incl (s : str) (c : Z) : In c (Py.strip s) -> In c s.
Proof.
  unfold Py.strip, Py.rstrip. intros H.
  apply lstrip_incl. apply in_rev. apply lstrip_incl.
  apply in_rev. exact H.
Qed.

Lemma rewrap_valid (s : str) : valid_text s -> valid_text (rewrap s).
Proof.
  intros Hs. unfold rewrap, valid_text.
  assert (Hlit : forall l, forallb (fun c => negb (is_surrogate c)) l = true ->
                           Forall (fun c => is_surrogate c = false) l).
  { intros l Hl. apply Forall_forall. intros c Hc.
    rewrite forallb_forall in Hl. apply negb_true_iff. exact (Hl c Hc). }
  apply Forall_app; split; [apply Hlit; reflexivity |].
  apply Forall_app; split; [apply Hlit; reflexivity |].
  apply Forall_app; split;
    [| apply Forall_app; split; apply Hlit; reflexivity].
  apply Forall_forall. intros c Hc.
  apply strip_incl, replace_delete_incl, replace_delete_incl in Hc.
  unfold valid_text in Hs. rewrite Forall_forall in Hs. exact (Hs c Hc).
Qed.

Lemma alphabet_token_char (c : Z) : In c base64_chars -> token_char c = true.
Proof.
  assert (H : forallb token_char base64_chars = true) by reflexivity.
  rewrite forallb_forall in H. exact (H c).
Qed.

(** The encoder is UTF-8 encoding of the re-wrapped text followed by the
    packing of the compressed bytes. *)
Lemma encode_plantuml_steps (zlib_compress : bytes -> bytes) (s : str) :
  encode_plantuml zlib_compress s
  = (data <- encode_utf8 (rewrap s) ;;
     Ok (Words.pack (compressed_of zlib_compress data))).
Proof.
  unfold encode_plantuml. cbv zeta.
  destruct (encode_utf8 (rewrap s)) as [e | data]; cbn [bind];
    [reflexivity | apply encode_loop_pack].
Qed.

Lemma encode_plantuml_returns (zlib_compress : bytes -> bytes) (s : str) :
  valid_text s ->
  exists data,
    encode_utf8 (rewrap s) = Ok data /\
    encode_plantuml zlib_compress s
    = Ok (Words.pack (compressed_of zlib_compress data)).
Proof.
  intros Hs.
  destruct (encode_utf8_from_total (rewrap s) (rewrap_valid s Hs) 0)
    as [data Hdata].
  exists data. split; [exact Hdata |].
  rewrite encode_plantuml_steps. unfold encode_utf8. rewrite Hdata.
  reflexivity.
Qed.

(** ** The encoder's contract *)

(** C1: [encode_plantuml] computes the token the five steps describe:
    delete the marker literals and trim, wrap, encode as UTF-8, compress and
    drop 2 bytes in front and 4 at the end, pack by bit fields into the
    64-symbol alphabet; the only fault it passes on is the one of the UTF-8
    step. *)
Theorem encode_plantuml_is_token (zlib_compress : bytes -> bytes) (s : str) :
  encode_plantuml zlib_compress s = Words.token zlib_compress s.
Proof.
  rewrite encode_plantuml_steps. unfold Words.token.
  change (Words.wrap (Words.normalise s)) with (rewrap s).
  destruct (encode_utf8 (rewrap s)) as [e | data]; cbn [bind]; [reflexivity |].
  unfold compressed_of, Words.raw_deflate. rewrite slice_frame. reflexivity.
Qed.

(** C7: for encodable text, the token has [4 * (n / 3)] symbols plus 0, 2
    or 3 for a remainder of 0, 1 or 2, where [n] counts the compressed bytes
    left after dropping the 2-byte header and the 4-byte trailer. *)
Theorem encode_plantuml_length (zlib_compress : bytes -> bytes) (s : str) :
  valid_text s ->
  exists data token,
    encode_utf8 (rewrap s) = Ok data /\
    encode_plantuml zlib_compress s = Ok token /\
    let n := len (Py.slice (zlib_compress data) 2 (-4)) in
    len token
    = 4 * (n / 3)
      + (if n mod 3 =? 0 then 0 else if n mod 3 =? 1 then 2 else 3).
Proof.
  intros Hs.
  destruct (encode_plantuml_returns zlib_compress s Hs) as (data & Hd & Henc).
  exists data, (Words.pack (compressed_of zlib_compress data)).
  repeat split; [exact Hd | exact Henc |].
  cbv zeta. rewrite pack_length. reflexivity.
Qed.

(** C8: for encodable text, every character of the token is a digit, an
    upper-case or lower-case letter, [-] or [_], taken from the 64-symbol
    alphabet. *)
Theorem encode_plantuml_alphabet (zlib_compress : bytes -> bytes) (s : str) :
  valid_text s ->
  exists token,
    encode_plantuml zlib_compress s = Ok token /\
    Forall (fun c => In c base64_chars /\ token_char c = true) token.
Proof.
  intros Hs.
  destruct (encode_plantuml_returns zlib_compress s Hs) as (data & _ & Henc).
  exists (Words.pack (compressed_of zlib_compress data)).
  split; [exact Henc |].
  eapply Forall_impl; [| apply pack_alphabet].
  intros c Hc. split; [exact Hc | apply alphabet_token_char; exact Hc].
Qed.

(** C10: wrapping the input in the marker lines beforehand does not change
    the token. *)
Theorem encode_plantuml_prewrapped (zlib_compress : bytes -> bytes) (s : str) :
  encode_plantuml zlib_compress s
  = encode_plantuml zlib_compress (startuml ++ nl ++ s ++ nl ++ enduml).
Proof.
  rewrite !encode_plantuml_steps, rewrap_wrapped. reflexivity.
Qed.

(** ** Searching *)

Lemma find_unfold (s sub : str) :
  Py.find s sub
  = if Py.startswith s sub then Some 0
    else match s with
         | [] => None
         | _ :: s' => option_map Z.succ (Py.find s' sub)
         end.
Proof. destruct s; reflexivity. Qed.

Lemma find_nonneg (s sub : str) (i : Z) : Py.find s sub = Some i -> 0 <= i.
Proof.
  revert i. induction s as [| c s IH]; intros i; rewrite find_unfold;
    destruct (Py.startswith _ sub); try (intros [= <-]; lia); try discriminate.
  destruct (Py.find s sub) as [j |]; [| discriminate].
  intros [= <-]. specialize (IH j eq_refl). lia.
Qed.

Lemma skipn_step {A : Type} (l : list A) (k : nat) (c : A) (rest : list A) :
  skipn k l = c :: rest -> skipn (S k) l = rest.
Proof.
  revert k. induction l as [| a l IH]; intros k H.
  - rewrite skipn_nil in H. discriminate.
  - destruct k as [| k]; [injection H as _ ->; reflexivity |].
    exact (IH k H).
Qed.

(** [Py.find] on a suffix is the least occurrence from that position on. *)
Lemma occurrence_find_gen (text sub : str) :
  forall n from, (from + n = List.length text)%nat ->
    List.find (fun k => Py.startswith (skipn k text) sub) (seq from (S n))
    = option_map (fun i => (from + Z.to_nat i)%nat)
                 (Py.find (skipn from text) sub).
Proof.
  induction n as [| n IH]; intros from Hlen; rewrite find_unfold;
    rewrite <- cons_seq;
    cbn [List.find];
    destruct (Py.startswith (skipn from text) sub) eqn:Hst;
    try (cbn; f_equal; lia).
  - rewrite skipn_all2 by lia. reflexivity.
  - destruct (skipn from text) as [| c rest] eqn:Hsk.
    + apply (f_equal (@List.length Z)) in Hsk.
      rewrite length_skipn in Hsk. cbn in Hsk. lia.
    + pose proof (skipn_step _ _ _ _ Hsk) as Hrest.
      rewrite (IH (S from)) by lia. rewrite Hrest.
      destruct (Py.find rest sub) as [j |] eqn:Hj; [| reflexivity].
      apply find_nonneg in Hj. cbn. f_equal. lia.
Qed.

Lemma occurrence_find (text sub : str) (from : nat) :
  (from <= List.length text)%nat ->
  Words.occurrence text sub from
  = option_map (fun i => (from + Z.to_nat i)%nat)
               (Py.find (skipn from text) sub).
Proof.
  intros H. unfold Words.occurrence.
  replace (S (List.length text) - from)%nat
    with (S (List.length text - from)) by lia.
  apply occurrence_find_gen. lia.
Qed.

Lemma occurrence_spec (text sub : str) (from k : nat) :
  Words.occurrence text sub from = Some k ->
  (from <= k <= List.length text)%nat /\
  Py.startswith (skipn k text) sub = true.
Proof.
  unfold Words.occurrence. intros H.
  apply find_some in H as [Hin Hst]. apply in_seq in Hin.
  split; [lia | exact Hst].
Qed.

Lemma startswith_length (s p : str) :
  Py.startswith s p = true -> (List.length p <= List.length s)%nat.
Proof.
  intros H. apply startswith_inv in H as [t ->].
  rewrite length_app. lia.
Qed.

(** A marker found at [i] ends inside the text. *)
Lemma occurrence_end (text sub : str) (from i : nat) :
  Words.occurrence text sub from = Some i ->
  (i + List.length sub <= List.length text)%nat.
Proof.
  intros H. apply occurrence_spec in H as [Hr Hst].
  apply startswith_length in Hst. rewrite length_skipn in Hst. lia.
Qed.

Lemma advance_inside (text m : str) (i : nat) :
  Words.occurrence text m 0 = Some i ->
  (advance m i <= List.length text)%nat.
Proof.
  intros H. pose proof (occurrence_end _ _ _ _ H).
  apply occurrence_spec in H. unfold advance.
  destruct (str_eqb m fence_open); lia.
Qed.

(** The runtime's search functions in terms of occurrences. *)
Lemma find_occurrence (text sub : str) :
  Py.find text sub
  = option_map Z.of_nat (Words.occurrence text sub 0).
Proof.
  rewrite occurrence_find by lia. cbn [skipn].
  destruct (Py.find text sub) as [i |] eqn:H; [| reflexivity].
  apply find_nonneg in H. cbn. f_equal. lia.
Qed.

Lemma index_from_occurrence (text sub : str) (from : nat) :
  (from <= List.length text)%nat ->
  Py.index_from text sub (Z.of_nat from)
  = match Words.occurrence text sub from with
    | Some j => Ok (Z.of_nat j)
    | None => Err Py.substring_not_found
    end.
Proof.
  intros H. unfold Py.index_from.
  destruct (Z.ltb_spec (len text) (Z.of_nat from)) as [Hlt | _];
    [unfold len in Hlt; lia |].
  rewrite adjust_inside by (unfold len; lia).
  rewrite Nat2Z.id, occurrence_find by exact H.
  destruct (Py.find (skipn from text) sub) as [j |] eqn:Hj; [| reflexivity].
  apply find_nonneg in Hj. cbn. f_equal. lia.
Qed.

Lemma slice_between {A : Type} (l : list A) (i j : nat) :
  (i <= j <= List.length l)%nat ->
  Py.slice l (Z.of_nat i) (Z.of_nat j) = Words.between l i j.
Proof.
  intros H. unfold Py.slice, Words.between.
  rewrite !adjust_inside by (unfold len; lia).
  rewrite Nat2Z.id. f_equal. lia.
Qed.

Lemma extract_block_canonical (text : str) (i j : nat) :
  (i <= j <= List.length text)%nat ->
  extract_block text (Z.of_nat i) (Z.of_nat j)
  = Words.canonical (Py.strip (Words.between text i j)).
Proof.
  intros H. unfold extract_block, Words.canonical. cbv zeta.
  rewrite slice_between by exact H.
  destruct (Py.startswith _ startuml); cbn [negb];
    match goal with |- context [Py.endswith ?c enduml] =>
      destruct (Py.endswith c enduml) end; reflexivity.
Qed.

Lemma extract_end_loop_found (text : str) (pos : nat) (markers : list str) :
  (pos <= List.length text)%nat ->
  extract_end_loop text (Z.of_nat pos) markers
  = option_map
      (fun j => Words.canonical (Py.strip (Words.between text pos j)))
      (Words.first_found markers text pos).
Proof.
  intros Hpos. induction markers as [| m rest IH]; [reflexivity |].
  cbn [extract_end_loop Words.first_found].
  rewrite index_from_occurrence by exact Hpos.
  destruct (Words.occurrence text m pos) as [j |] eqn:Hj; [| exact IH].
  cbn [option_map]. f_equal. apply extract_block_canonical.
  apply occurrence_spec in Hj. lia.
Qed.

(** ** The extractor as a search for the first block *)

Lemma advance_Z (m : str) (i : nat) :
  (if str_eqb m fence_open then Z.of_nat i + len m else Z.of_nat i)
  = Z.of_nat (advance m i).
Proof.
  unfold advance, len. destruct (str_eqb m fence_open); lia.
Qed.

Lemma extract_start_loop_blocks (text : str) (markers : list str) :
  extract_start_loop text markers = Ok (first_block text markers).
Proof.
  induction markers as [| m rest IH]; [reflexivity |].
  cbn [extract_start_loop first_block].
  unfold Py.contains, Py.index, block_for.
  rewrite find_occurrence.
  destruct (Words.occurrence text m 0) as [i |] eqn:Hi; cbn [option_map bind];
    [| exact IH].
  rewrite advance_Z.
  rewrite extract_end_loop_found by (eapply advance_inside; exact Hi).
  destruct (Words.first_found end_markers text (advance m i));
    cbn [option_map]; [reflexivity | exact IH].
Qed.

Lemma extract_plantuml_code_blocks (text : str) :
  extract_plantuml_code text
  = match first_block text start_markers with
    | Some code => Ok code
    | None => Err extraction_error
    end.
Proof.
  unfold extract_plantuml_code. rewrite extract_start_loop_blocks.
  cbn [bind]. destruct (first_block text start_markers); reflexivity.
Qed.

Lemma first_present_block (text m code : str) (markers : list str) :
  Words.first_present markers text = Some m ->
  block_for text m = Some code ->
  first_block text markers = Some code.
Proof.
  intros Hm Hb. induction markers as [| a rest IH]; [discriminate |].
  unfold Words.first_present in Hm. cbn [List.find] in Hm.
  cbn [first_block].
  destruct (Words.occurrence text a 0) as [i |] eqn:Ha.
  - injection Hm as ->. rewrite Hb. reflexivity.
  - unfold block_for at 1. rewrite Ha. exact (IH Hm).
Qed.

Lemma described_block (text : str) :
  Words.described text
  = match Words.first_present start_markers text with
    | None => None
    | Some m => block_for text m
    end.
Proof.
  unfold Words.described, block_for, advance.
  change [fence_open; startuml] with start_markers.
  change [fence_close; enduml] with end_markers.
  destruct (Words.first_present start_markers text) as [m |]; [| reflexivity].
  destruct (Words.occurrence text m 0) as [i |]; [| reflexivity].
  cbv zeta.
  destruct (Words.first_found end_markers text _); reflexivity.
Qed.

Lemma first_found_none (markers : list str) (text : str) (pos : nat) :
  Words.first_found markers text pos = None <->
  forall e, In e markers -> Words.occurrence text e pos = None.
Proof.
  induction markers as [| m rest IH]; cbn [Words.first_found].
  - split; [intros _ e [] | reflexivity].
  - destruct (Words.occurrence text m pos) as [j |] eqn:Hm.
    + split; [discriminate |]. intros H.
      specialize (H m (or_introl eq_refl)). congruence.
    + rewrite IH. split.
      * intros H e [<- | He]; [exact Hm | exact (H e He)].
      * intros H e He. apply H. right. exact He.
Qed.

Lemma block_for_none (text m : str) :
  block_for text m = None <->
  forall e, In e end_markers -> ~ marker_match text m e.
Proof.
  unfold block_for, marker_match.
  destruct (Words.occurrence text m 0) as [i |] eqn:Hi.
  - destruct (Words.first_found end_markers text (advance m i)) eqn:Hf;
      cbn [option_map].
    + split; [discriminate |]. intros H. exfalso.
      assert (Hn : Words.first_found end_markers text (advance m i) = None).
      { apply first_found_none. intros e He.
        destruct (Words.occurrence text e (advance m i)) as [j |] eqn:Hj;
          [| reflexivity].
        exfalso. apply (H e He). exists i, j. split; [reflexivity | exact Hj]. }
      congruence.
    + split; [| reflexivity]. intros _ e He (i' & j & Hi' & Hj).
      injection Hi' as <-.
      rewrite first_found_none in Hf. rewrite (Hf e He) in Hj. discriminate.
  - split; [| reflexivity]. intros _ e _ (i & j & Hi' & _). discriminate.
Qed.

Lemma first_block_none (text : str) (markers : list str) :
  first_block text markers = None <->
  forall m e, In m markers -> In e end_markers -> ~ marker_match text m e.
Proof.
  induction markers as [| a rest IH]; cbn [first_block].
  - split; [intros _ m e [] | reflexivity].
  - destruct (block_for text a) as [code |] eqn:Ha.
    + split; [discriminate |]. intros H.
      assert (Hn : block_for text a = None).
      { apply block_for_none. intros e He. apply H; [left; reflexivity | exact He]. }
      congruence.
    + rewrite IH. rewrite block_for_none in Ha. split.
      * intros H m e [<- | Hm] He; [exact (Ha e He) | exact (H m e Hm He)].
      * intros H m e Hm He. apply H; [right; exact Hm | exact He].
Qed.

(** ** The extractor's contract *)

(** C2: when the first start marker present in the text has an end marker
    at or after its advanced position, [extract_plantuml_code] returns the
    text between them, trimmed and completed with the marker lines: the
    position is advanced past the fenced opener only, the end markers are
    tried in order. *)
Theorem extract_plantuml_code_described (text code : str) :
  Words.described text = Some code ->
  extract_plantuml_code text = Ok code.
Proof.
  rewrite described_block, extract_plantuml_code_blocks.
  destruct (Words.first_present start_markers text) as [m |] eqn:Hm;
    [| discriminate].
  intros Hb. rewrite (first_present_block text m code start_markers Hm Hb).
  reflexivity.
Qed.

(** C5, amended: [extract_plantuml_code] fails exactly when no start marker
    that occurs in the text has an end marker at or after its advanced
    position, and its only failure is the extraction error. *)
Theorem extract_plantuml_code_fails_iff (text : str) :
  (extract_plantuml_code text = Err extraction_error <->
   forall sm em, In sm start_markers -> In em end_markers ->
                 ~ marker_match text sm em) /\
  (forall e, extract_plantuml_code text = Err e -> e = extraction_error).
Proof.
  rewrite extract_plantuml_code_blocks, <- first_block_none.
  destruct (first_block text start_markers) as [code |]; split.
  - split; discriminate.
  - discriminate.
  - split; reflexivity.
  - intros e [= <-]. reflexivity.
Qed.

(** C2, at the fenced block of the first scenario. *)
Lemma extract_plantuml_code_described_witness :
  Words.described fenced_text = Some canonical_text /\
  extract_plantuml_code fenced_text = Ok canonical_text.
Proof.
  split.
  - vm_compute. reflexivity.
  - apply extract_plantuml_code_described. vm_compute. reflexivity.
Defined.

(** C5 as stated fails: in [fallback_text] the first start marker present,
    the fenced opener, has no end marker after it, yet the extraction goes
    on to the bare marker and succeeds. *)
Lemma extract_plantuml_code_fallback :
  ~ ((exists e, extract_plantuml_code fallback_text = Err e) <->
     first_marker_unmatched fallback_text).
Proof.
  intros [_ H]. destruct H as [e He].
  - right. exists fence_open, 20%nat. repeat split.
    intros e [<- | [<- | []]]; vm_compute; reflexivity.
  - vm_compute in He. discriminate.
Qed.

(** ** Searching and trimming across a line break *)

Lemma startswith_sep (sub : str) (sep : Z) (y : str) :
  ~ In sep sub ->
  forall x, Py.startswith (x ++ sep :: y) sub = Py.startswith x sub.
Proof.
  induction sub as [| c sub IH]; intros Hsep x; [reflexivity |].
  destruct x as [| d x]; cbn [app Py.startswith].
  - destruct (Z.eqb_spec c sep) as [-> | _]; [| reflexivity].
    exfalso. apply Hsep. left. reflexivity.
  - rewrite IH; [reflexivity |]. intros Hin. apply Hsep. right. exact Hin.
Qed.

Lemma find_sep (sub : str) (sep : Z) (y : str) :
  sub <> [] -> ~ In sep sub ->
  forall x,
    Py.find (x ++ sep :: y) sub
    = match Py.find x sub with
      | Some i => Some i
      | None => option_map (fun j => len x + 1 + j) (Py.find y sub)
      end.
Proof.
  intros Hsub Hsep. induction x as [| d x IH].
  - rewrite (find_unfold ([] ++ sep :: y)), (find_unfold []).
    rewrite (startswith_sep sub sep y Hsep []).
    destruct sub as [| c sub]; [congruence |]. cbn [Py.startswith app].
    destruct (Py.find y (c :: sub)); [| reflexivity].
    cbn [option_map]. f_equal. change (len (@nil Z)) with 0. lia.
  - rewrite (find_unfold ((d :: x) ++ sep :: y)), (find_unfold (d :: x)).
    rewrite (startswith_sep sub sep y Hsep (d :: x)).
    destruct (Py.startswith (d :: x) sub); [reflexivity |]. cbn [app].
    rewrite IH. destruct (Py.find x sub); [reflexivity |].
    destruct (Py.find y sub); [| reflexivity].
    cbn [option_map]. rewrite len_cons. f_equal. lia.
Qed.

Lemma find_inside (p sub w : str) :
  exists i, Py.find (p ++ sub ++ w) sub = Some i.
Proof.
  induction p as [| c p [i IH]]; rewrite find_unfold.
  - cbn [app]. rewrite startswith_app. eexists. reflexivity.
  - cbn [app]. destruct (Py.startswith _ sub); [eexists; reflexivity |].
    rewrite IH. eexists. reflexivity.
Qed.

Lemma not_contained (s sub : str) :
  Py.contains s sub = false -> Py.find s sub = None.
Proof.
  unfold Py.contains. destruct (Py.find s sub); [discriminate | reflexivity].
Qed.

Lemma occurrence_of_find (text sub : str) (k : nat) :
  Py.find text sub = Some (Z.of_nat k) -> Words.occurrence text sub 0 = Some k.
Proof.
  rewrite find_occurrence.
  destruct (Words.occurrence text sub 0) as [j |]; [| discriminate].
  cbn [option_map]. intros [= H]. f_equal. lia.
Qed.

Lemma occurrence_of_find_none (text sub : str) :
  Py.find text sub = None -> Words.occurrence text sub 0 = None.
Proof.
  rewrite find_occurrence.
  destruct (Words.occurrence text sub 0); [discriminate | reflexivity].
Qed.

Lemma lstrip_prefix (u : str) : exists w, u = w ++ Py.lstrip u.
Proof.
  induction u as [| c u [w IH]]; [exists []; reflexivity |].
  cbn [Py.lstrip]. destruct (Py.isspace c).
  - exists (c :: w). cbn [app]. f_equal. exact IH.
  - exists []. reflexivity.
Qed.

Lemma rstrip_suffix (s : str) : exists w, s = Py.rstrip s ++ w.
Proof.
  unfold Py.rstrip. destruct (lstrip_prefix (rev s)) as [w Hw].
  exists (rev w). rewrite <- rev_app_distr, <- Hw, rev_involutive.
  reflexivity.
Qed.

Lemma lstrip_app (u v : str) :
  Py.lstrip u <> [] -> Py.lstrip (u ++ v) = Py.lstrip u ++ v.
Proof.
  induction u as [| c u IH]; cbn [app Py.lstrip]; intros H.
  - exfalso. apply H. reflexivity.
  - destruct (Py.isspace c); [exact (IH H) | reflexivity].
Qed.

Lemma rstrip_app (a b : str) :
  Py.rstrip b <> [] -> Py.rstrip (a ++ b) = a ++ Py.rstrip b.
Proof.
  unfold Py.rstrip. intros H.
  rewrite rev_app_distr, lstrip_app.
  - rewrite rev_app_distr, rev_involutive. reflexivity.
  - intros Hn. apply H. rewrite Hn. reflexivity.
Qed.

Lemma lstrip_snoc_text (u : str) (c : Z) :
  Py.isspace c = false -> Py.lstrip (u ++ [c]) = Py.lstrip u ++ [c].
Proof.
  intros H. induction u as [| d u IH].
  - cbn [app Py.lstrip]. rewrite H. reflexivity.
  - cbn [app Py.lstrip]. destruct (Py.isspace d); [exact IH | reflexivity].
Qed.

Lemma rstrip_cons_text (c : Z) (s : str) :
  Py.isspace c = false -> Py.rstrip (c :: s) = c :: Py.rstrip s.
Proof.
  intros H. unfold Py.rstrip. cbn [rev].
  rewrite lstrip_snoc_text by exact H. apply rev_unit.
Qed.

Lemma strip_text (s : str) :
  starts_with_text s = true ->
  Py.strip s = Py.rstrip s /\ Py.rstrip s <> [].
Proof.
  destruct s as [| c s]; [discriminate |]. cbn [starts_with_text].
  intros H. apply negb_true_iff in H. split.
  - unfold Py.strip. cbn [Py.lstrip]. rewrite H. reflexivity.
  - rewrite rstrip_cons_text by exact H. discriminate.
Qed.

Lemma endswith_contained (r w sub : str) :
  Py.endswith r sub = true -> Py.contains (r ++ w) sub = true.
Proof.
  unfold Py.endswith, Py.contains. intros H.
  apply startswith_inv in H as [t Ht].
  apply (f_equal (@rev Z)) in Ht.
  rewrite rev_involutive, rev_app_distr, rev_involutive in Ht. subst r.
  rewrite <- app_assoc.
  destruct (find_inside (rev t) sub w) as [i ->]. reflexivity.
Qed.

(** ** Extraction from a wrapped body *)

Lemma firstn_length_app {A : Type} (a b : list A) :
  firstn (List.length a) (a ++ b) = a.
Proof.
  induction a as [| x a IH]; [reflexivity |].
  cbn [List.length app firstn]. rewrite IH. reflexivity.
Qed.

Lemma wrapped_find (s sub : str) :
  sub <> [] -> ~ In 10 sub -> Py.find s sub = None ->
  Py.find (startuml ++ 10 :: (s ++ 10 :: enduml)) sub
  = match Py.find startuml sub with
    | Some i => Some i
    | None =>
        option_map (fun j => len startuml + 1 + j)
          (option_map (fun j => len s + 1 + j) (Py.find enduml sub))
    end.
Proof.
  intros Hsub Hsep Hs. rewrite !find_sep by assumption.
  rewrite Hs. reflexivity.
Qed.

Lemma marker_shape (m : str) :
  In m (start_markers ++ end_markers) -> m <> [] /\ ~ In 10 m.
Proof.
  intros [<- | [<- | [<- | [<- | []]]]];
    (split; [discriminate | vm_compute; intuition discriminate]).
Qed.

Lemma wrapped_body_trimmed (s : str) :
  starts_with_text s = true ->
  Py.strip (startuml ++ 10 :: s ++ [10]) = startuml ++ 10 :: Py.strip s.
Proof.
  intros Hs. destruct (strip_text s Hs) as [Hstrip Hne].
  change (startuml ++ 10 :: s ++ [10]) with ((startuml ++ 10 :: s) ++ [10]).
  rewrite strip_trailing_space by reflexivity.
  unfold Py.strip at 1.
  change (Py.lstrip (startuml ++ 10 :: s)) with (startuml ++ 10 :: s).
  change (startuml ++ 10 :: s) with ((startuml ++ [10]) ++ s).
  rewrite rstrip_app by exact Hne. rewrite Hstrip, <- app_assoc. reflexivity.
Qed.

Lemma wrapped_body_open_end (s : str) :
  Py.contains s enduml = false ->
  Py.endswith (startuml ++ 10 :: Py.rstrip s) enduml = false.
Proof.
  intros Hs. unfold Py.endswith.
  rewrite rev_app_distr. cbn [rev]. rewrite <- app_assoc. cbn [app].
  rewrite startswith_sep by (vm_compute; intuition discriminate).
  destruct (Py.startswith (rev (Py.rstrip s)) (rev enduml)) eqn:He;
    [| reflexivity].
  destruct (rstrip_suffix s) as [w Hw].
  pose proof (endswith_contained (Py.rstrip s) w enduml He) as Hc.
  rewrite <- Hw in Hc. congruence.
Qed.

(** C6, amended: for a body free of the marker and fence literals that
    begins with a character other than white space, extracting from the
    wrapped body gives the wrapped, trimmed body. *)
Theorem extract_plantuml_code_wrapped (s : str) :
  marker_free s ->
  starts_with_text s = true ->
  extract_plantuml_code (startuml ++ nl ++ s ++ nl ++ enduml)
  = Ok (startuml ++ nl ++ Py.strip s ++ nl ++ enduml).
Proof.
  intros Hfree Htext.
  assert (Hnone : forall m, In m (start_markers ++ end_markers) ->
                            Py.find s m = None).
  { intros m Hm. apply not_contained, Hfree, Hm. }
  assert (Hfind : forall m, In m (start_markers ++ end_markers) ->
             Py.find (startuml ++ 10 :: (s ++ 10 :: enduml)) m
             = match Py.find startuml m with
               | Some i => Some i
               | None =>
                   option_map (fun j => len startuml + 1 + j)
                     (option_map (fun j => len s + 1 + j) (Py.find enduml m))
               end).
  { intros m Hm. destruct (marker_shape m Hm) as [Hne Hsep].
    apply wrapped_find; [exact Hne | exact Hsep | exact (Hnone m Hm)]. }
  change (startuml ++ nl ++ s ++ nl ++ enduml)
    with (startuml ++ 10 :: (s ++ 10 :: enduml)).
  set (text := startuml ++ 10 :: (s ++ 10 :: enduml)) in *.
  assert (Hfo : Words.occurrence text fence_open 0 = None).
  { apply occurrence_of_find_none. rewrite Hfind by (cbn; tauto). reflexivity. }
  assert (Hst : Words.occurrence text startuml 0 = Some 0%nat).
  { apply occurrence_of_find. rewrite Hfind by (cbn; tauto). reflexivity. }
  assert (Hfc : Words.occurrence text fence_close 0 = None).
  { apply occurrence_of_find_none. rewrite Hfind by (cbn; tauto). reflexivity. }
  assert (Hen : Words.occurrence text enduml 0
                = Some (List.length (startuml ++ 10 :: s ++ [10]))).
  { apply occurrence_of_find. rewrite Hfind by (cbn; tauto).
    change (Py.find startuml enduml) with (@None Z).
    change (Py.find enduml enduml) with (Some 0).
    cbn [option_map]. f_equal.
    rewrite length_app. cbn [List.length]. rewrite length_app.
    unfold len. cbn [List.length]. lia. }
  rewrite extract_plantuml_code_blocks.
  unfold start_markers, first_block, block_for.
  rewrite Hfo, Hst.
  change (advance startuml 0) with 0%nat.
  unfold end_markers, Words.first_found. rewrite Hfc, Hen.
  cbn [option_map]. f_equal.
  unfold Words.between. rewrite Nat.sub_0_r. cbn [skipn].
  replace text with ((startuml ++ 10 :: s ++ [10]) ++ enduml)
    by (subst text; rewrite <- !app_assoc; cbn [app]; rewrite <- app_assoc;
        reflexivity).
  rewrite firstn_length_app, wrapped_body_trimmed by exact Htext.
  unfold Words.canonical. rewrite startswith_app.
  destruct (strip_text s Htext) as [Hstrip _]. rewrite Hstrip.
  rewrite wrapped_body_open_end by (apply Hfree; cbn; tauto).
  unfold nl. rewrite <- app_assoc. reflexivity.
Qed.

(** C6, at a body of one line. *)
Lemma extract_plantuml_code_wrapped_witness :
  extract_plantuml_code (startuml ++ nl ++ lit "A->B: hi  " ++ nl ++ enduml)
  = Ok (startuml ++ nl ++ Py.strip (lit "A->B: hi  ") ++ nl ++ enduml).
Proof.
  apply (extract_plantuml_code_wrapped (lit "A->B: hi  ")).
  - intros m [<- | [<- | [<- | [<- | []]]]]; reflexivity.
  - reflexivity.
Defined.

(** C6 as stated fails at the empty body: the blank line between the
    markers is trimmed away with the rest. *)
Lemma extract_plantuml_code_blank_body :
  marker_free [] /\
  extract_plantuml_code (startuml ++ nl ++ [] ++ nl ++ enduml)
  <> Ok (startuml ++ nl ++ Py.strip [] ++ nl ++ enduml).
Proof.
  split.
  - intros m [<- | [<- | [<- | [<- | []]]]]; reflexivity.
  - vm_compute. discriminate.
Qed.

(** ** The tool boundary *)

Ltac step_bind H :=
  match type of H with
  | bind ?m _ = _ =>
      let E := fresh "E" in
      destruct m eqn:E; cbn [bind] in H; [discriminate |]
  end.

Lemma uml_fault_try (env : services) (yml_body output_format : str) (e : exn) :
  uml_fault env yml_body output_format e ->
  get_uml_diagram_try env yml_body output_format = Err e.
Proof.
  intros H. unfold get_uml_diagram_try.
  destruct H as [H1 | text H1 H2 | text code H1 H2 H3
                | text code diagram H1 H2 H3 H4];
    rewrite H1; cbn [bind]; try rewrite H2; cbn [bind];
    try rewrite H3; cbn [bind]; cbv zeta; try rewrite H4; reflexivity.
Qed.

(** A response other than 200 makes the fetch raise, with the status in
    the message. *)
Lemma from_server_status (env : services) (code output_format encoded : str)
    (response : http_response) :
  encode_plantuml (compress env) code = Ok encoded ->
  http_request env (lit "GET")
    (PLANTUML_SERVER ++ lit "/" ++ output_format ++ lit "/" ++ encoded)
  = Ok response ->
  status response <> 200 ->
  get_diagram_from_server env code output_format
  = Err (Raise ExceptionC
           (lit "Error getting diagram from server: "
            ++ lit "Failed to get diagram: HTTP "
            ++ Py.str_of_int (status response))).
Proof.
  intros Henc Hreq Hst. unfold get_diagram_from_server.
  rewrite Henc. cbn [bind]. cbv zeta. rewrite Hreq. cbn [bind].
  destruct (Z.eqb_spec (status response) 200) as [H | _]; [contradiction |].
  reflexivity.
Qed.

Lemma uml_success_fields (env : services) (yml_body output_format : str)
    (r : json) :
  get_uml_diagram_try env yml_body output_format = Ok r ->
  exists code uri summary,
    r = JDict [("codeBody", JStr code); ("diagramUri", JStr uri);
               ("summary", JStr summary)].
Proof.
  unfold get_uml_diagram_try. intros H.
  do 3 step_bind H. cbv zeta in H. step_bind H.
  injection H as <-. eauto.
Qed.

Lemma unit_test_success_fields (env : services) (yml_body user_query : str)
    (r : json) :
  get_unit_test_code_try env yml_body user_query = Ok r ->
  exists code, r = JDict [("codeBody", JStr code)].
Proof.
  unfold get_unit_test_code_try. cbv zeta. intros H.
  step_bind H. injection H as <-. eauto.
Qed.

Lemma search_success_fields (env : services) (query kb_id : str)
    (max_results : Z) (r : json) :
  search_knowledge_base_try env query kb_id max_results = Ok r ->
  exists results,
    r = JDict [("query", JStr query); ("results", JList results);
               ("count", JInt (len results))].
Proof.
  unfold search_knowledge_base_try. intros H.
  do 4 step_bind H. injection H as <-. eauto.
Qed.

(** C3: whichever internal step of [get_uml_diagram] raises (the model
    invocation, the extraction, the fetch from the rendering server, the
    upload), the tool returns the JSON encoding of
    [{error: str(e), codeBody: null, diagramUri: null}]. *)
Theorem get_uml_diagram_catches (env : services)
    (yml_body output_format : str) (e : exn) :
  uml_fault env yml_body output_format e ->
  get_uml_diagram env yml_body output_format
  = json_dumps env
      (JDict [("error", JStr (exn_str e)); ("codeBody", JNull);
              ("diagramUri", JNull)]).
Proof.
  intros H. unfold get_uml_diagram, get_uml_diagram_result.
  rewrite (uml_fault_try env yml_body output_format e H). reflexivity.
Qed.

(** C3, when the model cannot be reached. *)
Lemma get_uml_diagram_catches_witness :
  uml_fault Sample.no_model (lit "openapi: 3.0.0") (lit "png")
    (Raise ExceptionC (lit "model unavailable")) /\
  get_uml_diagram Sample.no_model (lit "openapi: 3.0.0") (lit "png")
  = Sample.dumps
      (JDict [("error", JStr (lit "model unavailable")); ("codeBody", JNull);
              ("diagramUri", JNull)]).
Proof.
  assert (H : uml_fault Sample.no_model (lit "openapi: 3.0.0") (lit "png")
                (Raise ExceptionC (lit "model unavailable")))
    by (apply model_fault; reflexivity).
  split; [exact H |].
  exact (get_uml_diagram_catches Sample.no_model _ _ _ H).
Defined.

(** C4, amended: when the rendering server answers with a status other than
    200 after the source was extracted, the result carries the error
    message with that status, and both [codeBody] and [diagramUri] are
    null: the extracted source is not kept. *)
Theorem get_uml_diagram_bad_status (env : services)
    (yml_body output_format text code encoded : str)
    (response : http_response) :
  uml_model_text env yml_body = Ok text ->
  extract_plantuml_code text = Ok code ->
  encode_plantuml (compress env) code = Ok encoded ->
  http_request env (lit "GET")
    (PLANTUML_SERVER ++ lit "/" ++ output_format ++ lit "/" ++ encoded)
  = Ok response ->
  status response <> 200 ->
  let message :=
    lit "Error getting diagram from server: "
    ++ lit "Failed to get diagram: HTTP " ++ Py.str_of_int (status response) in
  get_uml_diagram_result env yml_body output_format
  = JDict [("error", JStr message); ("codeBody", JNull);
           ("diagramUri", JNull)] /\
  get_uml_diagram env yml_body output_format
  = json_dumps env
      (JDict [("error", JStr message); ("codeBody", JNull);
              ("diagramUri", JNull)]).
Proof.
  intros Htext Hcode Henc Hreq Hst message.
  assert (Hres : get_uml_diagram_result env yml_body output_format
                 = JDict [("error", JStr message); ("codeBody", JNull);
                          ("diagramUri", JNull)]).
  { unfold get_uml_diagram_result, get_uml_diagram_try.
    rewrite Htext. cbn [bind]. rewrite Hcode. cbn [bind].
    rewrite (from_server_status env code output_format encoded response
               Henc Hreq Hst).
    reflexivity. }
  split; [exact Hres |].
  unfold get_uml_diagram. rewrite Hres. reflexivity.
Qed.

(** C4, amended, at a server that answers 404. *)
Lemma get_uml_diagram_bad_status_witness :
  get_uml_diagram_result Sample.server_404 (lit "openapi: 3.0.0") (lit "png")
  = JDict [("error",
            JStr (lit "Error getting diagram from server: "
                  ++ lit "Failed to get diagram: HTTP " ++ Py.str_of_int 404));
           ("codeBody", JNull); ("diagramUri", JNull)] /\
  get_uml_diagram Sample.server_404 (lit "openapi: 3.0.0") (lit "png")
  = Sample.dumps
      (JDict [("error",
               JStr (lit "Error getting diagram from server: "
                     ++ lit "Failed to get diagram: HTTP " ++ Py.str_of_int 404));
              ("codeBody", JNull); ("diagramUri", JNull)]).
Proof.
  apply (get_uml_diagram_bad_status Sample.server_404
           (lit "openapi: 3.0.0") (lit "png") fenced_text canonical_text
           (lit "0He0vVz0StHXSdHrRMmAGIq-GZeWQ6aAG6LkP7LjR0")
           (Response 404 [])).
  - reflexivity.
  - vm_compute. reflexivity.
  - vm_compute. reflexivity.
  - reflexivity.
  - discriminate.
Defined.

(** C4 as stated fails: with the source extracted and the server answering
    404, [codeBody] of the result is null, not the extracted source. *)
Lemma get_uml_diagram_404_drops_source :
  let r :=
    get_uml_diagram_result Sample.server_404 (lit "openapi: 3.0.0") (lit "png") in
  uml_model_text Sample.server_404 (lit "openapi: 3.0.0") = Ok fenced_text /\
  extract_plantuml_code fenced_text = Ok canonical_text /\
  field "diagramUri" r = Some JNull /\
  field "codeBody" r = Some JNull /\
  field "codeBody" r <> Some (JStr canonical_text).
Proof.
  cbv zeta.
  assert (Hr : field "codeBody"
                 (get_uml_diagram_result Sample.server_404
                    (lit "openapi: 3.0.0") (lit "png")) = Some JNull)
    by (vm_compute; reflexivity).
  repeat split; try (vm_compute; reflexivity); try exact Hr.
  rewrite Hr. discriminate.
Qed.

(** C9, amended: every tool returns the JSON encoding of a dictionary; the
    dictionary has an [error] key exactly when the tool's [try] block
    raised, so a caller can branch on that key; the error shape keeps
    [codeBody] and [diagramUri], [codeBody], or [results] of the success
    shape, while [summary], [query] and [count] are on the success shape
    only. *)
Theorem tool_result_shapes (env : services)
    (yml_body output_format user_query query kb_id : str) (max_results : Z) :
  (exists fields,
      get_uml_diagram env yml_body output_format
      = json_dumps env (JDict fields) /\
      keys fields
      = match get_uml_diagram_try env yml_body output_format with
        | Ok _ => ["codeBody"; "diagramUri"; "summary"]
        | Err _ => ["error"; "codeBody"; "diagramUri"]
        end) /\
  (exists fields,
      get_unit_test_code env yml_body user_query
      = json_dumps env (JDict fields) /\
      keys fields
      = match get_unit_test_code_try env yml_body user_query with
        | Ok _ => ["codeBody"]
        | Err _ => ["error"; "codeBody"]
        end) /\
  (exists fields,
      search_knowledge_base env query kb_id max_results
      = json_dumps env (JDict fields) /\
      keys fields
      = match search_knowledge_base_try env query kb_id max_results with
        | Ok _ => ["query"; "results"; "count"]
        | Err _ => ["error"; "results"]
        end).
Proof.
  repeat split.
  - unfold get_uml_diagram, get_uml_diagram_result.
    destruct (get_uml_diagram_try env yml_body output_format) as [e | r] eqn:H.
    + eexists. split; reflexivity.
    + apply uml_success_fields in H as (code & uri & summary & ->).
      eexists. split; reflexivity.
  - unfold get_unit_test_code, get_unit_test_code_result.
    destruct (get_unit_test_code_try env yml_body user_query) as [e | r] eqn:H.
    + eexists. split; reflexivity.
    + apply unit_test_success_fields in H as (code & ->).
      eexists. split; reflexivity.
  - unfold search_knowledge_base, search_knowledge_base_result.
    destruct (search_knowledge_base_try env query kb_id max_results)
      as [e | r] eqn:H.
    + eexists. split; reflexivity.
    + apply search_success_fields in H as (results & ->).
      eexists. split; reflexivity.
Qed.

(** C9 as stated fails: a successful and a failed [get_uml_diagram] do not
    carry the same field names, [summary] is on the successful one only. *)
Lemma get_uml_diagram_shapes_differ :
  ~ same_field_names
      (get_uml_diagram_result Sample.up (lit "openapi: 3.0.0") (lit "png"))
      (get_uml_diagram_result Sample.server_404 (lit "openapi: 3.0.0")
         (lit "png")).
Proof.
  intros H. destruct (H "summary") as [Hin _]; [discriminate |].
  assert (Hup : In "summary"
                  (field_names
                     (get_uml_diagram_result Sample.up (lit "openapi: 3.0.0")
                        (lit "png"))))
    by (vm_compute; tauto).
  specialize (Hin Hup). vm_compute in Hin. clear - Hin.
  repeat destruct Hin as [Hin | Hin]; try discriminate; exact Hin.
Qed.

(** C7, at a one-line diagram over the stored stream. *)
Lemma encode_plantuml_length_witness :
  valid_text (lit "A->B: hi") /\
  exists data token,
    encode_utf8 (rewrap (lit "A->B: hi")) = Ok data /\
    encode_plantuml Stored.compress (lit "A->B: hi") = Ok token /\
    let n := len (Py.slice (Stored.compress data) 2 (-4)) in
    len token
    = 4 * (n / 3)
      + (if n mod 3 =? 0 then 0 else if n mod 3 =? 1 then 2 else 3).
Proof.
  assert (H : valid_text (lit "A->B: hi")) by (repeat constructor).
  split; [exact H |].
  exact (encode_plantuml_length Stored.compress (lit "A->B: hi") H).
Defined.

(** C8, at the same diagram. *)
Lemma encode_plantuml_alphabet_witness :
  valid_text (lit "A->B: hi") /\
  exists token,
    encode_plantuml Stored.compress (lit "A->B: hi") = Ok token /\
    Forall (fun c => In c base64_chars /\ token_char c = true) token.
Proof.
  assert (H : valid_text (lit "A->B: hi")) by (repeat constructor).
  split; [exact H |].
  exact (encode_plantuml_alphabet Stored.compress (lit "A->B: hi") H).
Defined.

(** ** The specification's scenarios *)

Example extract_bare_block :
  extract_plantuml_code canonical_text = Ok canonical_text.
Proof. vm_compute. reflexivity. Qed.

Example extract_no_markers :
  extract_plantuml_code (lit "no diagram in this answer") = Err extraction_error.
Proof. vm_compute. reflexivity. Qed.

Example encode_empty_body :
  encode_plantuml Stored.compress (startuml ++ nl ++ nl ++ enduml)
  = Ok (lit "0H80xVz0StHXSdHrRMmA2a1bRcHrRMm").
Proof. vm_compute. reflexivity. Qed.

(** With the stream zlib produces for it, the diagram of the scenarios
    gets the token the rendering server expects. *)
Example encode_recorded_stream (zlib_compress : bytes -> bytes) :
  zlib_compress recorded_data = recorded_stream ->
  encode_plantuml zlib_compress canonical_text
  = Ok (lit "SoWkIImgAStDuNBKjNEoKiZ8v798pKi12W00").
Proof.
  intros H. rewrite encode_plantuml_steps.
  assert (E : encode_utf8 (rewrap canonical_text) = Ok recorded_data)
    by (vm_compute; reflexivity).
  rewrite E. cbn [bind]. unfold compressed_of. rewrite H.
  vm_compute. reflexivity.
Qed.

(** * Further properties of the code *)

(** ** The extracted block *)

Lemma startswith_grows (s p x : str) :
  Py.startswith s p = true -> Py.startswith (s ++ x) p = true.
Proof.
  intros H. apply startswith_inv in H as [t ->].
  rewrite <- app_assoc. apply startswith_app.
Qed.

Lemma endswith_app (s p : str) : Py.endswith (s ++ p) p = true.
Proof.
  unfold Py.endswith. rewrite rev_app_distr. apply startswith_app.
Qed.

Lemma extract_block_marked (text : str) (i j : Z) :
  Py.startswith (extract_block text i j) startuml = true /\
  Py.endswith (extract_block text i j) enduml = true.
Proof.
  unfold extract_block. cbv zeta.
  set (code := Py.strip (Py.slice text i j)).
  assert (Hstart :
            Py.startswith
              (if negb (Py.startswith code startuml)
               then startuml ++ nl ++ code else code) startuml = true).
  { destruct (Py.startswith code startuml) eqn:H; cbn [negb];
      [exact H | apply startswith_app]. }
  set (code' := if negb (Py.startswith code startuml)
                then startuml ++ nl ++ code else code) in *.
  destruct (Py.endswith code' enduml) eqn:Hend; cbn [negb].
  - split; [exact Hstart | exact Hend].
  - split.
    + apply startswith_grows. exact Hstart.
    + rewrite app_assoc. apply endswith_app.
Qed.

Lemma extract_end_loop_marked (text : str) (start_idx : Z)
    (markers : list str) (code : str) :
  extract_end_loop text start_idx markers = Some code ->
  Py.startswith code startuml = true /\ Py.endswith code enduml = true.
Proof.
  induction markers as [| m rest IH]; [discriminate |].
  cbn [extract_end_loop].
  destruct (Py.index_from text m start_idx) as [e | end_idx]; [exact IH |].
  intros [= <-]. apply extract_block_marked.
Qed.

Lemma extract_start_loop_marked (text : str) (markers : list str) (code : str) :
  extract_start_loop text markers = Ok (Some code) ->
  Py.startswith code startuml = true /\ Py.endswith code enduml = true.
Proof.
  induction markers as [| m rest IH]; [discriminate |].
  cbn [extract_start_loop].
  destruct (Py.contains text m); [| exact IH].
  destruct (Py.index text m) as [e | start_idx]; cbn [bind]; [discriminate |].
  destruct (extract_end_loop text _ end_markers) as [found |] eqn:Hend;
    [| exact IH].
  intros [= <-]. exact (extract_end_loop_marked _ _ _ _ Hend).
Qed.

(** X1: whatever [extract_plantuml_code] returns begins with [@startuml]
    and ends with [@enduml]. *)
Theorem extract_plantuml_code_marked (text code : str) :
  extract_plantuml_code text = Ok code ->
  Py.startswith code startuml = true /\ Py.endswith code enduml = true.
Proof.
  unfold extract_plantuml_code.
  destruct (extract_start_loop text start_markers) as [e | [found |]] eqn:H;
    cbn [bind try_except]; try discriminate.
  intros [= <-]. exact (extract_start_loop_marked _ _ _ H).
Qed.

(** X1, at a fenced block that has no marker lines of its own. *)
Lemma extract_plantuml_code_marked_witness :
  extract_plantuml_code (lit "```plantuml
A->B: hi
```") = Ok canonical_text /\
  Py.startswith canonical_text startuml = true /\
  Py.endswith canonical_text enduml = true.
Proof.
  assert (H : extract_plantuml_code (lit "```plantuml
A->B: hi
```") = Ok canonical_text) by (vm_compute; reflexivity).
  split; [exact H |].
  exact (extract_plantuml_code_marked _ _ H).
Defined.

Lemma skipn_length_app {A : Type} (a b : list A) :
  skipn (List.length a) (a ++ b) = b.
Proof. induction a as [| x a IH]; [reflexivity | exact IH]. Qed.

Lemma strip_infix (b : str) : exists w1 w2, b = w1 ++ Py.strip b ++ w2.
Proof.
  destruct (lstrip_prefix b) as [w1 H1].
  destruct (rstrip_suffix (Py.lstrip b)) as [w2 H2].
  exists w1, w2. unfold Py.strip. rewrite <- H2. exact H1.
Qed.

Lemma starts_contained (w1 r w2 sub : str) :
  Py.startswith r sub = true -> Py.contains (w1 ++ r ++ w2) sub = true.
Proof.
  intros H. apply startswith_inv in H as [t ->]. unfold Py.contains.
  rewrite <- app_assoc.
  destruct (find_inside w1 sub (t ++ w2)) as [i ->]. reflexivity.
Qed.

Lemma ends_contained (w1 r w2 sub : str) :
  Py.endswith r sub = true -> Py.contains (w1 ++ r ++ w2) sub = true.
Proof.
  intros H. rewrite app_assoc.
  replace ((w1 ++ r) ++ w2) with (w1 ++ (r ++ w2)) by apply app_assoc.
  unfold Py.endswith in H. apply startswith_inv in H as [t Ht].
  apply (f_equal (@rev Z)) in Ht.
  rewrite rev_involutive, rev_app_distr, rev_involutive in Ht. subst r.
  unfold Py.contains. rewrite <- app_assoc, app_assoc.
  destruct (find_inside (w1 ++ rev t) sub w2) as [i ->]. reflexivity.
Qed.

(** The trimmed body of a marker-free text neither starts nor ends with a
    marker. *)
Lemma strip_marker_free (b m : str) :
  Py.contains b m = false ->
  Py.startswith (Py.strip b) m = false /\ Py.endswith (Py.strip b) m = false.
Proof.
  intros H. destruct (strip_infix b) as (w1 & w2 & Hb). split.
  - destruct (Py.startswith (Py.strip b) m) eqn:E; [| reflexivity].
    pose proof (starts_contained w1 _ w2 m E) as Hc.
    rewrite <- Hb in Hc. congruence.
  - destruct (Py.endswith (Py.strip b) m) eqn:E; [| reflexivity].
    pose proof (ends_contained w1 _ w2 m E) as Hc.
    rewrite <- Hb in Hc. congruence.
Qed.

Lemma canonical_injects (payload : str) :
  Py.startswith payload startuml = false ->
  Py.endswith payload enduml = false ->
  Words.canonical payload = startuml ++ nl ++ payload ++ nl ++ enduml.
Proof.
  intros Hs He. unfold Words.canonical. rewrite Hs.
  assert (Hopen : Py.endswith (startuml ++ nl ++ payload) enduml = false).
  { unfold Py.endswith in *. rewrite !rev_app_distr.
    change (rev nl) with [10]. rewrite <- app_assoc. cbn [app].
    rewrite startswith_sep by (vm_compute; intuition discriminate).
    exact He. }
  rewrite Hopen, <- !app_assoc. reflexivity.
Qed.

(** X2: a fenced block whose body has no marker or fence literal is
    returned with the marker lines added around the trimmed body, whatever
    follows the closing fence. *)
Theorem extract_plantuml_code_fenced (body rest : str) :
  marker_free body ->
  extract_plantuml_code
    (fence_open ++ nl ++ body ++ nl ++ fence_close ++ rest)
  = Ok (startuml ++ nl ++ Py.strip body ++ nl ++ enduml).
Proof.
  intros Hfree.
  set (inner := 10 :: body ++ [10]).
  set (text := fence_open ++ nl ++ body ++ nl ++ fence_close ++ rest).
  assert (Htext : text = fence_open ++ inner ++ fence_close ++ rest).
  { subst text inner. unfold nl. cbn [app]. rewrite <- app_assoc. reflexivity. }
  assert (Hfo : Words.occurrence text fence_open 0 = Some 0%nat).
  { apply occurrence_of_find. rewrite Htext, find_unfold, startswith_app.
    reflexivity. }
  assert (Hlen : (11 <= List.length text)%nat).
  { rewrite Htext, length_app. change (List.length fence_open) with 11%nat. lia. }
  assert (Hskip : skipn 11 text = inner ++ fence_close ++ rest).
  { rewrite Htext. exact (skipn_length_app fence_open _). }
  assert (Hfc : Words.occurrence text fence_close 11
                = Some (11 + List.length inner)%nat).
  { rewrite occurrence_find by exact Hlen. rewrite Hskip.
    replace (inner ++ fence_close ++ rest)
      with ([] ++ 10 :: (body ++ 10 :: (fence_close ++ rest)))
      by (subst inner; cbn [app]; rewrite <- app_assoc; reflexivity).
    rewrite !find_sep by (try discriminate; vm_compute; intuition discriminate).
    rewrite (not_contained body fence_close) by (apply Hfree; cbn; tauto).
    rewrite (find_unfold (fence_close ++ rest)), startswith_app.
    change (Py.find [] fence_close) with (@None Z).
    cbn [option_map]. f_equal. subst inner.
    cbn [List.length]. rewrite length_app. unfold len. cbn [List.length]. lia. }
  rewrite extract_plantuml_code_blocks.
  unfold start_markers, first_block, block_for. rewrite Hfo.
  change (advance fence_open 0) with 11%nat.
  unfold end_markers, Words.first_found. rewrite Hfc.
  cbn [option_map]. f_equal.
  unfold Words.between.
  replace (11 + List.length inner - 11)%nat with (List.length inner) by lia.
  rewrite Hskip, firstn_length_app.
  subst inner. rewrite strip_between_newlines.
  destruct (strip_marker_free body startuml) as [Hs _];
    [apply Hfree; cbn; tauto |].
  destruct (strip_marker_free body enduml) as [_ He];
    [apply Hfree; cbn; tauto |].
  apply canonical_injects; assumption.
Qed.

(** X2, at a one-line body followed by prose. *)
Lemma extract_plantuml_code_fenced_witness :
  extract_plantuml_code
    (fence_open ++ nl ++ lit " A->B: hi " ++ nl ++ fence_close
     ++ lit " as requested")
  = Ok (startuml ++ nl ++ Py.strip (lit " A->B: hi ") ++ nl ++ enduml).
Proof.
  apply (extract_plantuml_code_fenced (lit " A->B: hi ") (lit " as requested")).
  intros m [<- | [<- | [<- | [<- | []]]]]; reflexivity.
Defined.

(** ** When the encoder returns *)

Lemma encode_utf8_from_valid (s : str) :
  forall pos data, encode_utf8_from pos s = Ok data -> valid_text s.
Proof.
  induction s as [| c s IH]; intros pos data H; [constructor |].
  cbn [encode_utf8_from] in H.
  destruct (is_surrogate c) eqn:Hc; [discriminate |].
  destruct (encode_utf8_from (pos + 1) s) as [e | rest] eqn:Hrest;
    [discriminate |].
  constructor; [exact Hc | exact (IH _ _ Hrest)].
Qed.

Lemma encode_utf8_from_class (s : str) :
  forall pos e, encode_utf8_from pos s = Err e ->
                exn_cls e = UnicodeEncodeErrorC.
Proof.
  induction s as [| c s IH]; intros pos e H; [discriminate |].
  cbn [encode_utf8_from] in H. destruct (is_surrogate c).
  - injection H as <-. reflexivity.
  - destruct (encode_utf8_from (pos + 1) s) as [e' | rest] eqn:Hrest;
      [| discriminate].
    injection H as <-. exact (IH _ _ Hrest).
Qed.

(** Deleting a literal keeps every character the literal lacks. *)
Lemma replace_scan_delete_keeps (old : str) (c : Z) :
  old <> [] -> ~ In c old ->
  forall s, In c s -> In c (Py.replace_scan old [] 0 s).
Proof.
  intros Hold Hc s. remember (List.length s) as n eqn:Hn. revert s Hn.
  induction n as [n IH] using lt_wf_ind. intros s Hn Hin.
  destruct s as [| d s]; [destruct Hin |].
  destruct (Py.startswith (d :: s) old) eqn:Hst.
  - apply startswith_inv in Hst as [t Ht]. rewrite Ht in *.
    rewrite replace_scan_match by exact Hold. cbn [app].
    apply in_app_or in Hin as [Hin | Hin]; [contradiction |].
    apply (IH (List.length t)); [| reflexivity | exact Hin].
    subst n. rewrite length_app. destruct old; [congruence | cbn; lia].
  - rewrite replace_scan_pass by exact Hst.
    destruct Hin as [-> | Hin]; [left; reflexivity | right].
    apply (IH (List.length s)); [subst n; cbn; lia | reflexivity | exact Hin].
Qed.

Lemma lstrip_keeps (s : str) (c : Z) :
  Py.isspace c = false -> In c s -> In c (Py.lstrip s).
Proof.
  intros Hc. induction s as [| d s IH]; [intros [] |].
  cbn [Py.lstrip]. destruct (Py.isspace d) eqn:Hd; [| intros H; exact H].
  intros [-> | H]; [congruence | exact (IH H)].
Qed.

Lemma strip_keeps (s : str) (c : Z) :
  Py.isspace c = false -> In c s -> In c (Py.strip s).
Proof.
  intros Hc H. unfold Py.strip, Py.rstrip.
  apply in_rev. rewrite rev_involutive.
  apply lstrip_keeps; [exact Hc |]. apply in_rev. rewrite rev_involutive.
  apply lstrip_keeps; assumption.
Qed.

Lemma surrogate_not_space (c : Z) :
  is_surrogate c = true -> Py.isspace c = false.
Proof.
  unfold is_surrogate. intros H. apply andb_prop in H as [Hlo Hhi].
  apply Z.leb_le in Hlo. apply Z.leb_le in Hhi. unfold Py.isspace.
  rewrite (proj2 (Z.leb_gt c 13)), (proj2 (Z.leb_gt c 32)),
    (proj2 (Z.leb_gt c 8202)) by lia.
  rewrite (proj2 (Z.eqb_neq c 133)), (proj2 (Z.eqb_neq c 160)),
    (proj2 (Z.eqb_neq c 5760)), (proj2 (Z.eqb_neq c 8232)),
    (proj2 (Z.eqb_neq c 8233)), (proj2 (Z.eqb_neq c 8239)),
    (proj2 (Z.eqb_neq c 8287)), (proj2 (Z.eqb_neq c 12288)) by lia.
  rewrite !andb_false_r. reflexivity.
Qed.

Lemma marker_chars_plain (m : str) (c : Z) :
  In m [startuml; enduml] -> In c m ->
  is_surrogate c = false /\ Py.isspace c = false.
Proof.
  intros [<- | [<- | []]] Hc; vm_compute in Hc;
    repeat (destruct Hc as [<- | Hc]; [split; reflexivity |]);
    destruct Hc.
Qed.

Lemma rewrap_keeps_surrogate (s : str) (c : Z) :
  is_surrogate c = true -> In c s -> In c (rewrap s).
Proof.
  intros Hc Hin. unfold rewrap.
  assert (Hout : forall m, In m [startuml; enduml] -> ~ In c m).
  { intros m Hm Hcm. destruct (marker_chars_plain m c Hm Hcm). congruence. }
  apply in_or_app. right. apply in_or_app. right.
  apply in_or_app. left.
  apply strip_keeps; [apply surrogate_not_space; exact Hc |].
  rewrite !replace_nonempty by discriminate.
  apply replace_scan_delete_keeps; [discriminate | apply Hout; cbn; tauto |].
  apply replace_scan_delete_keeps; [discriminate | apply Hout; cbn; tauto |].
  exact Hin.
Qed.

(** X3: [encode_plantuml] returns a token exactly for the texts free of
    surrogate code points, and otherwise raises [UnicodeEncodeError]: the
    packing loop never indexes outside the alphabet. *)
Theorem encode_plantuml_returns_iff (zlib_compress : bytes -> bytes) (s : str) :
  ((exists token, encode_plantuml zlib_compress s = Ok token) <->
   valid_text s) /\
  (forall e, encode_plantuml zlib_compress s = Err e ->
             exn_cls e = UnicodeEncodeErrorC).
Proof.
  rewrite encode_plantuml_steps. unfold encode_utf8. split; [split |].
  - intros [token H].
    destruct (encode_utf8_from 0 (rewrap s)) as [e | data] eqn:Hd;
      [discriminate |].
    apply encode_utf8_from_valid in Hd.
    unfold valid_text in *. rewrite Forall_forall in *.
    intros c Hc. destruct (is_surrogate c) eqn:Hsur; [| reflexivity].
    rewrite <- Hsur. apply Hd. apply rewrap_keeps_surrogate; assumption.
  - intros Hs.
    destruct (encode_utf8_from_total (rewrap s) (rewrap_valid s Hs) 0)
      as [data ->].
    eexists. reflexivity.
  - intros e H.
    destruct (encode_utf8_from 0 (rewrap s)) as [e' | data] eqn:Hd;
      cbn [bind] in H; [| discriminate].
    injection H as <-. exact (encode_utf8_from_class _ _ _ Hd).
Qed.

(** ** Reading a token back *)

Lemma byte_of_val (x : Byte.byte) : byte_of (byte_val x) = x.
Proof.
  unfold byte_of, byte_val. rewrite N2Z.id, Byte.of_to_N. reflexivity.
Qed.

Lemma position_symbol (k : Z) :
  0 <= k < 64 -> Decode.position (Words.symbol k) = Some k.
Proof.
  intros H.
  assert (Hall : forallb
                   (fun n => match Decode.position (Words.symbol (Z.of_nat n)) with
                             | Some j => j =? Z.of_nat n
                             | None => false
                             end)
                   (seq 0 64) = true) by (vm_compute; reflexivity).
  rewrite forallb_forall in Hall.
  specialize (Hall (Z.to_nat k)). rewrite Z2Nat.id in Hall by lia.
  destruct (Decode.position (Words.symbol k)) as [j |].
  - f_equal. apply Z.eqb_eq. apply Hall. apply in_seq. lia.
  - discriminate Hall. apply in_seq. lia.
Qed.

Lemma fields_recombine (b0 b1 b2 : Z) :
  0 <= b0 < 256 -> 0 <= b1 < 256 -> 0 <= b2 < 256 ->
  Decode.byte0 (Words.symbol1 b0) (Words.symbol2 b0 b1) = b0 /\
  Decode.byte1 (Words.symbol2 b0 b1) (Words.symbol3 b1 b2) = b1 /\
  Decode.byte2 (Words.symbol3 b1 b2) (Words.symbol4 b2) = b2.
Proof.
  intros H0 H1 H2.
  unfold Decode.byte0, Decode.byte1, Decode.byte2, Words.symbol1,
    Words.symbol2, Words.symbol3, Words.symbol4, Words.join, Words.bits.
  change (2 ^ 0) with 1. change (2 ^ 2) with 4. change (2 ^ 4) with 16.
  change (2 ^ 6) with 64.
  repeat split; Z.div_mod_to_equations; lia.
Qed.

Lemma positions_symbols (ks : list Z) :
  Forall (fun k => 0 <= k < 64) ks ->
  Decode.positions (map Words.symbol ks) = Some ks.
Proof.
  induction 1 as [| k ks Hk _ IH]; [reflexivity |].
  cbn [map Decode.positions fold_right].
  fold (Decode.positions (map Words.symbol ks)).
  rewrite IH, (position_symbol k Hk). reflexivity.
Qed.

Lemma pack_as_values (l : bytes) :
  Words.pack l = map Words.symbol (pack_values l).
Proof.
  induction l as [| a | a b | a b c rest IH] using list_ind3;
    try reflexivity.
  cbn [Words.pack pack_values map app]. rewrite IH. reflexivity.
Qed.

Lemma pack_values_bound (l : bytes) :
  Forall (fun k => 0 <= k < 64) (pack_values l).
Proof.
  induction l as [| a | a b | a b c rest IH] using list_ind3;
    cbn [pack_values];
    repeat (apply Forall_cons;
            [first [apply symbol1_bound | apply symbol2_bound
                   | apply symbol3_bound | apply symbol4_bound] |]);
    try exact IH; constructor.
Qed.

Lemma unpack_values_pack (l : bytes) :
  Decode.unpack_values (pack_values l) = Some l.
Proof.
  induction l as [| a | a b | a b c rest IH] using list_ind3.
  - reflexivity.
  - destruct (fields_recombine (byte_val a) 0 0) as (E0 & _ & _);
      [apply byte_val_range | lia | lia |].
    cbn [pack_values Decode.unpack_values]. rewrite E0, byte_of_val.
    reflexivity.
  - destruct (fields_recombine (byte_val a) (byte_val b) 0) as (E0 & E1 & _);
      [apply byte_val_range | apply byte_val_range | lia |].
    cbn [pack_values Decode.unpack_values]. rewrite E0, E1, !byte_of_val.
    reflexivity.
  - destruct (fields_recombine (byte_val a) (byte_val b) (byte_val c))
      as (E0 & E1 & E2); try apply byte_val_range.
    cbn [pack_values Decode.unpack_values]. rewrite IH, E0, E1, E2, !byte_of_val.
    reflexivity.
Qed.

(** X4: the token of the packing loop reads back to the compressed bytes:
    looking the symbols up in the alphabet and joining their 6-bit values
    four at a time gives the bytes that were packed, so two different
    streams never share a token. *)
Theorem encode_loop_round_trip (compressed : bytes) :
  exists token,
    encode_loop compressed = Ok token /\
    Decode.unpack token = Some compressed.
Proof.
  exists (Words.pack compressed). split; [apply encode_loop_pack |].
  unfold Decode.unpack.
  rewrite pack_as_values, (positions_symbols _ (pack_values_bound compressed)).
  apply unpack_values_pack.
Qed.

(** ** White space around the input *)

Lemma space_not_in_marker (m : str) (c : Z) :
  In m [startuml; enduml] -> Py.isspace c = true -> ~ In c m.
Proof.
  intros Hm Hc Hin. destruct (marker_chars_plain m c Hm Hin). congruence.
Qed.

Lemma replace_scan_sep_head (old new : str) (sep : Z) (y : str) :
  old <> [] -> ~ In sep old ->
  Py.replace_scan old new 0 (sep :: y) = sep :: Py.replace_scan old new 0 y.
Proof.
  intros Hold Hsep. exact (replace_scan_sep old new sep y Hold Hsep []).
Qed.

Lemma replace_scan_sep_last (old new : str) (sep : Z) (x : str) :
  old <> [] -> ~ In sep old ->
  Py.replace_scan old new 0 (x ++ [sep]) = Py.replace_scan old new 0 x ++ [sep].
Proof.
  intros Hold Hsep. exact (replace_scan_sep old new sep [] Hold Hsep x).
Qed.

Lemma delete_markers_cons (c : Z) (s : str) :
  Py.isspace c = true ->
  Py.replace (Py.replace (c :: s) startuml []) enduml []
  = c :: Py.replace (Py.replace s startuml []) enduml [].
Proof.
  intros Hc. rewrite !replace_nonempty by discriminate.
  rewrite (replace_scan_sep_head startuml), (replace_scan_sep_head enduml)
    by first [discriminate
             | apply space_not_in_marker; [cbn; tauto | exact Hc]].
  reflexivity.
Qed.

Lemma delete_markers_snoc (c : Z) (s : str) :
  Py.isspace c = true ->
  Py.replace (Py.replace (s ++ [c]) startuml []) enduml []
  = Py.replace (Py.replace s startuml []) enduml [] ++ [c].
Proof.
  intros Hc. rewrite !replace_nonempty by discriminate.
  rewrite (replace_scan_sep_last startuml), (replace_scan_sep_last enduml)
    by first [discriminate
             | apply space_not_in_marker; [cbn; tauto | exact Hc]].
  reflexivity.
Qed.

Lemma rewrap_cons_space (c : Z) (s : str) :
  Py.isspace c = true -> rewrap (c :: s) = rewrap s.
Proof.
  intros Hc. unfold rewrap. rewrite delete_markers_cons by exact Hc.
  unfold Py.strip. rewrite lstrip_space by exact Hc. reflexivity.
Qed.

Lemma rewrap_snoc_space (c : Z) (s : str) :
  Py.isspace c = true -> rewrap (s ++ [c]) = rewrap s.
Proof.
  intros Hc. unfold rewrap. rewrite delete_markers_snoc by exact Hc.
  rewrite strip_trailing_space by exact Hc. reflexivity.
Qed.

Lemma rewrap_trims (pre s post : str) :
  Forall (fun c => Py.isspace c = true) pre ->
  Forall (fun c => Py.isspace c = true) post ->
  rewrap (pre ++ s ++ post) = rewrap s.
Proof.
  intros Hpre Hpost. induction Hpre as [| c pre Hc _ IH].
  - cbn [app]. revert s. induction Hpost as [| c post Hc _ IH]; intros s.
    + rewrite app_nil_r. reflexivity.
    + change (s ++ c :: post) with (s ++ [c] ++ post).
      rewrite app_assoc, IH. apply rewrap_snoc_space. exact Hc.
  - cbn [app]. rewrite rewrap_cons_space by exact Hc. exact IH.
Qed.

(** X5: white space before and after the input does not change the token,
    nor whether the encoder returns. *)
Theorem encode_plantuml_trims (zlib_compress : bytes -> bytes)
    (pre s post : str) :
  Forall (fun c => Py.isspace c = true) pre ->
  Forall (fun c => Py.isspace c = true) post ->
  encode_plantuml zlib_compress (pre ++ s ++ post)
  = encode_plantuml zlib_compress s.
Proof.
  intros Hpre Hpost.
  rewrite !encode_plantuml_steps, rewrap_trims by assumption. reflexivity.
Qed.

(** X5, at a diagram line between a blank line and trailing blanks. *)
Lemma encode_plantuml_trims_witness :
  encode_plantuml Stored.compress ([10; 32] ++ lit "A->B: hi" ++ [32; 9; 10])
  = encode_plantuml Stored.compress (lit "A->B: hi").
Proof.
  apply (encode_plantuml_trims Stored.compress [10; 32] (lit "A->B: hi")
           [32; 9; 10]);
    repeat constructor.
Defined.

(** ** The rendering server and the object store *)

(** X6: [get_diagram_from_server] returns the response body exactly when
    the text encodes, the GET of [PLANTUML_SERVER/format/token] answers and
    the status is 200; every failure is an [Exception] whose message starts
    with [Error getting diagram from server: ]. *)
Theorem get_diagram_from_server_cases (env : services)
    (plantuml_code output_format : str) :
  (forall diagram,
      get_diagram_from_server env plantuml_code output_format = Ok diagram <->
      exists encoded response,
        encode_plantuml (compress env) plantuml_code = Ok encoded /\
        http_request env (lit "GET") (diagram_url output_format encoded)
        = Ok response /\
        status response = 200 /\ data response = diagram) /\
  (forall e,
      get_diagram_from_server env plantuml_code output_format = Err e ->
      exn_cls e = ExceptionC /\
      exists inner,
        exn_str e = lit "Error getting diagram from server: " ++ inner).
Proof.
  unfold get_diagram_from_server, diagram_url. split.
  - intros diagram. split.
    + intros H.
      destruct (encode_plantuml (compress env) plantuml_code)
        as [e | encoded]; cbn [bind try_except] in H; [discriminate |].
      cbv zeta in H.
      destruct (http_request env (lit "GET") _) as [e | response] eqn:Hreq;
        cbn [bind try_except] in H; [discriminate |].
      destruct (Z.eqb_spec (status response) 200) as [Hst | Hst];
        cbn [try_except] in H; [| discriminate].
      injection H as <-. exists encoded, response. repeat split; assumption.
    + intros (encoded & response & -> & Hreq & Hst & <-).
      cbn [bind]. cbv zeta. rewrite Hreq. cbn [bind].
      rewrite Hst. reflexivity.
  - intros e H.
    destruct (encode_plantuml (compress env) plantuml_code)
      as [e0 | encoded]; cbn [bind try_except] in H.
    + injection H as <-. split; [reflexivity | eexists; reflexivity].
    + cbv zeta in H.
      destruct (http_request env (lit "GET") _) as [e0 | response];
        cbn [bind try_except] in H.
      * injection H as <-. split; [reflexivity | eexists; reflexivity].
      * destruct (status response =? 200); cbn [try_except] in H;
          [discriminate |].
        injection H as <-. split; [reflexivity | eexists; reflexivity].
Qed.

(** X7: [get_default_bucket] returns [sagemaker-<region>-<account>] exactly
    when the account is known and the bucket exists or can be created;
    what [head_bucket] raised is never reported, and every failure is an
    [Exception] whose message starts with [Error getting default bucket: ]
    and goes on with the message of the account lookup or of
    [create_bucket]. *)
Theorem get_default_bucket_cases (env : services) :
  (forall bucket,
      get_default_bucket env = Ok bucket <->
      exists account,
        get_caller_identity_account env = Ok account /\
        bucket = default_bucket_name env account /\
        (head_bucket env bucket = Ok tt \/
         (exists e, head_bucket env bucket = Err e) /\
         create_bucket env bucket (bucket_configuration (region_name env))
         = Ok tt)) /\
  (forall e,
      get_default_bucket env = Err e ->
      exn_cls e = ExceptionC /\
      exists e',
        exn_str e = lit "Error getting default bucket: " ++ exn_str e' /\
        (get_caller_identity_account env = Err e' \/
         exists account,
           get_caller_identity_account env = Ok account /\
           create_bucket env (default_bucket_name env account)
             (bucket_configuration (region_name env)) = Err e')).
Proof.
  unfold get_default_bucket. cbv zeta.
  fold (bucket_configuration (region_name env)).
  destruct (get_caller_identity_account env) as [ea | account];
    cbn [bind try_except].
  - split.
    + intros bucket. split; [discriminate |].
      intros (account & H & _). discriminate.
    + intros e [= <-]. split; [reflexivity |].
      exists ea. split; [reflexivity | left; reflexivity].
  - fold (default_bucket_name env account).
    destruct (head_bucket env (default_bucket_name env account))
      as [eh | []] eqn:Hhead; cbn [bind try_except].
    + destruct (create_bucket env (default_bucket_name env account) _)
        as [ec | []] eqn:Hcreate; cbn [bind try_except]; split.
      * intros bucket. split; [discriminate |].
        intros (account' & [= <-] & -> & [H | [_ H]]); congruence.
      * intros e [= <-]. split; [reflexivity |].
        exists ec. split; [reflexivity |].
        right. exists account. split; [reflexivity | exact Hcreate].
      * intros bucket. split.
        -- intros [= <-]. exists account. repeat split.
           right. split; [exists eh; exact Hhead | exact Hcreate].
        -- intros (account' & [= <-] & -> & _). reflexivity.
      * discriminate.
    + split.
      * intros bucket. split.
        -- intros [= <-]. exists account. repeat split. left. exact Hhead.
        -- intros (account' & [= <-] & -> & _). reflexivity.
      * discriminate.
Qed.

(** X8: [upload_to_s3] returns [s3://<bucket>/<key>] exactly when the
    default bucket is available and [put_object] stores the data there
    under the key, always with content type [image/png]; every failure is
    an [Exception] whose message starts with [Error uploading to S3: ]. *)
Theorem upload_to_s3_cases (env : services) (diagram_data : bytes) (key : str) :
  (forall uri,
      upload_to_s3 env diagram_data key = Ok uri <->
      exists bucket,
        get_default_bucket env = Ok bucket /\
        put_object env bucket key diagram_data (lit "image/png") = Ok tt /\
        uri = lit "s3://" ++ bucket ++ lit "/" ++ key) /\
  (forall e,
      upload_to_s3 env diagram_data key = Err e ->
      exn_cls e = ExceptionC /\
      exists inner, exn_str e = lit "Error uploading to S3: " ++ inner).
Proof.
  unfold upload_to_s3.
  destruct (get_default_bucket env) as [eb | bucket]; cbn [bind try_except].
  - split.
    + intros uri. split; [discriminate |]. intros (b & H & _). discriminate.
    + intros e [= <-]. split; [reflexivity | eexists; reflexivity].
  - destruct (put_object env bucket key diagram_data (lit "image/png"))
      as [ep | []] eqn:Hput; cbn [bind try_except]; split.
    + intros uri. split; [discriminate |].
      intros (b & [= <-] & H & _). congruence.
    + intros e [= <-]. split; [reflexivity | eexists; reflexivity].
    + intros uri. cbv zeta. split.
      * intros [= <-]. exists bucket. repeat split. exact Hput.
      * intros (b & [= <-] & _ & ->). reflexivity.
    + discriminate.
Qed.

(** ** The diagram tool, stage by stage *)

(** X9: when the model answers with a text that holds a block, the block
    encodes, the server answers 200, the bucket is available and the
    upload succeeds, [get_uml_diagram] reports the extracted block as
    [codeBody], [s3://<bucket>/diagrams/<uuid>.<format>] as [diagramUri]
    and a summary naming that address. *)
Theorem get_uml_diagram_success (env : services)
    (yml_body output_format text code encoded bucket : str)
    (response : http_response) :
  uml_model_text env yml_body = Ok text ->
  extract_plantuml_code text = Ok code ->
  encode_plantuml (compress env) code = Ok encoded ->
  http_request env (lit "GET") (diagram_url output_format encoded)
  = Ok response ->
  status response = 200 ->
  get_default_bucket env = Ok bucket ->
  put_object env bucket
    (lit "diagrams/" ++ uuid4 env ++ lit "." ++ output_format)
    (data response) (lit "image/png") = Ok tt ->
  let uri :=
    lit "s3://" ++ bucket ++ lit "/"
    ++ lit "diagrams/" ++ uuid4 env ++ lit "." ++ output_format in
  get_uml_diagram env yml_body output_format
  = json_dumps env
      (JDict [("codeBody", JStr code); ("diagramUri", JStr uri);
              ("summary",
               JStr (lit "UML diagram generated successfully and saved to "
                     ++ uri))]).
Proof.
  intros Htext Hcode Henc Hreq Hst Hbucket Hput uri.
  unfold get_uml_diagram, get_uml_diagram_result, get_uml_diagram_try.
  rewrite Htext. cbn [bind]. rewrite Hcode. cbn [bind].
  assert (Hfetch : get_diagram_from_server env code output_format
                   = Ok (data response)).
  { unfold get_diagram_from_server. rewrite Henc. cbn [bind]. cbv zeta.
    fold (diagram_url output_format encoded). rewrite Hreq. cbn [bind].
    rewrite Hst. reflexivity. }
  rewrite Hfetch. cbn [bind]. cbv zeta.
  unfold upload_to_s3, diagram_file_name.
  rewrite Hbucket. cbn [bind]. rewrite Hput. reflexivity.
Qed.

(** X9, with every service answering. *)
Lemma get_uml_diagram_success_witness :
  let uri :=
    lit "s3://" ++ lit "sagemaker-eu-west-1-123456789012" ++ lit "/"
    ++ lit "diagrams/" ++ uuid4 Sample.up ++ lit "." ++ lit "png" in
  get_uml_diagram Sample.up (lit "openapi: 3.0.0") (lit "png")
  = json_dumps Sample.up
      (JDict [("codeBody", JStr canonical_text); ("diagramUri", JStr uri);
              ("summary",
               JStr (lit "UML diagram generated successfully and saved to "
                     ++ uri))]).
Proof.
  apply (get_uml_diagram_success Sample.up (lit "openapi: 3.0.0") (lit "png")
           fenced_text canonical_text
           (lit "0He0vVz0StHXSdHrRMmAGIq-GZeWQ6aAG6LkP7LjR0")
           (lit "sagemaker-eu-west-1-123456789012")
           (Response 200 (map byte_of [137; 80; 78; 71]))).
  - reflexivity.
  - vm_compute. reflexivity.
  - vm_compute. reflexivity.
  - reflexivity.
  - reflexivity.
  - vm_compute. reflexivity.
  - reflexivity.
Defined.

Lemma extract_error_only (text : str) (e : exn) :
  extract_plantuml_code text = Err e -> e = extraction_error.
Proof.
  rewrite extract_plantuml_code_blocks.
  destruct (first_block text start_markers); [discriminate |].
  intros [= <-]. reflexivity.
Qed.

(** X10: the error [get_uml_diagram] reports names the stage that failed:
    it is the model's own exception, or its message starts with
    [Could not extract PlantUML code: ], [Error getting diagram from
    server: ] or [Error uploading to S3: ]. *)
Theorem get_uml_diagram_error_stage (env : services)
    (yml_body output_format : str) (e : exn) :
  get_uml_diagram_try env yml_body output_format = Err e ->
  uml_model_text env yml_body = Err e \/
  Py.startswith (exn_str e) (lit "Could not extract PlantUML code: ") = true \/
  Py.startswith (exn_str e) (lit "Error getting diagram from server: ") = true \/
  Py.startswith (exn_str e) (lit "Error uploading to S3: ") = true.
Proof.
  unfold get_uml_diagram_try. intros H.
  destruct (uml_model_text env yml_body) as [e1 | text];
    cbn [bind] in H; [left; injection H as <-; reflexivity | right].
  destruct (extract_plantuml_code text) as [e2 | code] eqn:Hcode;
    cbn [bind] in H.
  - left. injection H as <-.
    rewrite (extract_error_only text e2 Hcode). reflexivity.
  - right.
    destruct (get_diagram_from_server env code output_format)
      as [e3 | diagram] eqn:Hfetch; cbn [bind] in H.
    + left. injection H as <-.
      unfold get_diagram_from_server in Hfetch.
      destruct (encode_plantuml (compress env) code) as [e0 | encoded];
        cbn [bind try_except] in Hfetch;
        [injection Hfetch as <-; cbn [exn_str]; reflexivity |].
      cbv zeta in Hfetch.
      destruct (http_request env (lit "GET") _) as [e0 | response];
        cbn [bind try_except] in Hfetch;
        [injection Hfetch as <-; cbn [exn_str]; reflexivity |].
      destruct (status response =? 200); cbn [try_except] in Hfetch;
        [discriminate | injection Hfetch as <-; cbn [exn_str]; reflexivity].
    + right. cbv zeta in H.
      destruct (upload_to_s3 env diagram (diagram_file_name env output_format))
        as [e4 | uri] eqn:Hup; cbn [bind] in H; [| discriminate].
      injection H as <-. unfold upload_to_s3 in Hup.
      destruct (get_default_bucket env) as [eb | bucket];
        cbn [bind try_except] in Hup;
        [injection Hup as <-; cbn [exn_str]; reflexivity |].
      destruct (put_object env bucket _ diagram (lit "image/png"))
        as [ep | []]; cbn [bind try_except] in Hup;
        [injection Hup as <-; cbn [exn_str]; reflexivity | discriminate].
Qed.

(** X10, at a server that answers 404. *)
Lemma get_uml_diagram_error_stage_witness :
  let e :=
    Raise ExceptionC
      (lit "Error getting diagram from server: "
       ++ lit "Failed to get diagram: HTTP " ++ Py.str_of_int 404) in
  get_uml_diagram_try Sample.server_404 (lit "openapi: 3.0.0") (lit "png")
  = Err e /\
  (uml_model_text Sample.server_404 (lit "openapi: 3.0.0") = Err e \/
   Py.startswith (exn_str e) (lit "Could not extract PlantUML code: ") = true \/
   Py.startswith (exn_str e) (lit "Error getting diagram from server: ") = true \/
   Py.startswith (exn_str e) (lit "Error uploading to S3: ") = true).
Proof.
  cbv zeta.
  assert (H : get_uml_diagram_try Sample.server_404 (lit "openapi: 3.0.0")
                (lit "png")
              = Err (Raise ExceptionC
                       (lit "Error getting diagram from server: "
                        ++ lit "Failed to get diagram: HTTP "
                        ++ Py.str_of_int 404)))
    by (vm_compute; reflexivity).
  split; [exact H |].
  exact (get_uml_diagram_error_stage Sample.server_404 _ _ _ H).
Defined.

(** ** The search tool *)

Lemma search_entry_fields (item entry : json) :
  search_entry item = Ok entry ->
  field_names entry = ["content"; "score"; "metadata"].
Proof.
  unfold search_entry. intros H.
  do 4 step_bind H. injection H as <-. reflexivity.
Qed.

Lemma search_loop_entries (items : list json) :
  forall acc results,
    search_loop items acc = Ok results ->
    exists entries,
      results = acc ++ entries /\
      Forall2 (fun item entry => search_entry item = Ok entry) items entries.
Proof.
  induction items as [| item rest IH]; intros acc results H.
  - injection H as <-. exists []. rewrite app_nil_r. split; constructor.
  - cbn [search_loop] in H.
    destruct (search_entry item) as [e | entry] eqn:Hentry;
      cbn [bind] in H; [discriminate |].
    destruct (IH _ _ H) as (entries & -> & Hall).
    exists (entry :: entries). rewrite <- app_assoc.
    split; [reflexivity | constructor; assumption].
Qed.

(** X11: when [search_knowledge_base] succeeds, [results] holds one entry
    per retrieved item, in the order retrieved, each with exactly the
    fields [content], [score] and [metadata], and [count] is the number of
    retrieved items. *)
Theorem search_knowledge_base_counts (env : services) (query kb_id : str)
    (max_results : Z) (r : json) :
  search_knowledge_base_try env query kb_id max_results = Ok r ->
  exists response items results,
    retrieve env kb_id query max_results = Ok response /\
    retrieved_items response = Ok items /\
    Forall2 (fun item entry => search_entry item = Ok entry) items results /\
    Forall (fun entry => field_names entry = ["content"; "score"; "metadata"])
      results /\
    r = JDict [("query", JStr query); ("results", JList results);
               ("count", JInt (len items))].
Proof.
  unfold search_knowledge_base_try, retrieved_items. intros H.
  destruct (retrieve env kb_id query max_results) as [e | response];
    cbn [bind] in H; [discriminate |].
  destruct (py_get response "retrievalResults" (JList [])) as [e | found]
    eqn:Hget; cbn [bind] in H; [discriminate |].
  destruct (py_iter found) as [e | items] eqn:Hiter;
    cbn [bind] in H; [discriminate |].
  destruct (search_loop items []) as [e | results] eqn:Hloop;
    cbn [bind] in H; [discriminate |].
  injection H as <-.
  destruct (search_loop_entries items [] results Hloop) as (entries & -> & Hall).
  cbn [app]. exists response, items, entries.
  split; [reflexivity |].
  split; [rewrite Hget; exact Hiter |]. split; [exact Hall |].
  split.
  - clear Hloop Hiter.
    induction Hall as [| item entry items' entries' Hentry _ IH];
      [constructor |].
    constructor; [exact (search_entry_fields _ _ Hentry) | exact IH].
  - unfold len. rewrite (Forall2_length Hall). reflexivity.
Qed.

(** X11, at a retrieval of one item. *)
Lemma search_knowledge_base_counts_witness :
  exists response items results,
    retrieve Sample.up (lit "KB1") (lit "pets") 5 = Ok response /\
    retrieved_items response = Ok items /\
    Forall2 (fun item entry => search_entry item = Ok entry) items results /\
    Forall (fun entry => field_names entry = ["content"; "score"; "metadata"])
      results /\
    JDict [("query", JStr (lit "pets"));
           ("results",
            JList [JDict [("content", JStr (lit "paths: /pets"));
                          ("score", JFloat (lit "0.5"));
                          ("metadata", JDict [])]]);
           ("count", JInt 1)]
    = JDict [("query", JStr (lit "pets")); ("results", JList results);
             ("count", JInt (len items))].
Proof.
  apply (search_knowledge_base_counts Sample.up (lit "pets") (lit "KB1") 5).
  reflexivity.
Defined.

(** X12: a response without a [retrievalResults] key is not an error: the
    tool returns the query with an empty [results] list and [count] 0. *)
Theorem search_knowledge_base_no_results (env : services) (query kb_id : str)
    (max_results : Z) (fields : list (string * json)) :
  retrieve env kb_id query max_results = Ok (JDict fields) ->
  lookup "retrievalResults" fields = None ->
  search_knowledge_base env query kb_id max_results
  = json_dumps env
      (JDict [("query", JStr query); ("results", JList []);
              ("count", JInt 0)]).
Proof.
  intros Hret Hkey.
  unfold search_knowledge_base, search_knowledge_base_result,
    search_knowledge_base_try.
  rewrite Hret. cbn [bind py_get]. rewrite Hkey. reflexivity.
Qed.

(** X12, at a response that carries only its metadata. *)
Lemma search_knowledge_base_no_results_witness :
  search_knowledge_base SampleSearch.bare (lit "pets") (lit "KB1") 5
  = json_dumps SampleSearch.bare
      (JDict [("query", JStr (lit "pets")); ("results", JList []);
              ("count", JInt 0)]).
Proof.
  apply (search_knowledge_base_no_results SampleSearch.bare (lit "pets")
           (lit "KB1") 5 [("ResponseMetadata", JDict [])]);
    reflexivity.
Defined.

Lemma search_entry_needs_dict (item : json) :
  is_dict item = false -> exists e, search_entry item = Err e.
Proof.
  intros H. destruct item; try discriminate; eexists; reflexivity.
Qed.

Lemma search_loop_needs_dicts (items : list json) (item : json) :
  In item items -> is_dict item = false ->
  forall acc, exists e, search_loop items acc = Err e.
Proof.
  intros Hin Hitem. induction items as [| first rest IH]; [destruct Hin |].
  intros acc. cbn [search_loop].
  destruct (search_entry first) as [e | entry] eqn:Hfirst; cbn [bind].
  - exists e. reflexivity.
  - destruct Hin as [-> | Hin].
    + destruct (search_entry_needs_dict item Hitem) as [e He]. congruence.
    + apply IH. exact Hin.
Qed.

(** X13: if one of the retrieved items is not a dictionary, the tool
    returns the error shape with an empty [results] list: the entries
    built from the items before it are dropped. *)
Theorem search_knowledge_base_all_or_nothing (env : services)
    (query kb_id : str) (max_results : Z) (response item : json)
    (items : list json) :
  retrieve env kb_id query max_results = Ok response ->
  retrieved_items response = Ok items ->
  In item items -> is_dict item = false ->
  exists e,
    search_knowledge_base env query kb_id max_results
    = json_dumps env
        (JDict [("error", JStr (exn_str e)); ("results", JList [])]).
Proof.
  intros Hret Hitems Hin Hitem.
  destruct (search_loop_needs_dicts items item Hin Hitem []) as [e He].
  exists e.
  unfold search_knowledge_base, search_knowledge_base_result,
    search_knowledge_base_try.
  rewrite Hret. cbn [bind]. unfold retrieved_items in Hitems.
  destruct (py_get response "retrievalResults" (JList [])) as [e0 | found];
    cbn [bind] in Hitems |- *; [discriminate |].
  rewrite Hitems. cbn [bind]. rewrite He. reflexivity.
Qed.

(** X13, at a retrieval whose second item is a string. *)
Lemma search_knowledge_base_all_or_nothing_witness :
  exists e,
    search_knowledge_base SampleSearch.mixed (lit "pets") (lit "KB1") 5
    = json_dumps SampleSearch.mixed
        (JDict [("error", JStr (exn_str e)); ("results", JList [])]).
Proof.
  apply (search_knowledge_base_all_or_nothing SampleSearch.mixed (lit "pets")
           (lit "KB1") 5
           (JDict
              [("retrievalResults",
                JList [JDict [("content",
                               JDict [("text", JStr (lit "paths: /pets"))])];
                       JStr (lit "throttled")])])
           (JStr (lit "throttled"))
           [JDict [("content", JDict [("text", JStr (lit "paths: /pets"))])];
            JStr (lit "throttled")]).
  - reflexivity.
  - reflexivity.
  - right. left. reflexivity.
  - reflexivity.
Defined.

(** ** The prompts *)

(** X14: [get_uml_diagram] asks the model with the template in which the
    YAML body stands, verbatim, in place of the one [{YAML_FILE}]
    placeholder; nothing inside the body is substituted. *)
Theorem uml_model_text_prompt (env : services) (yml_body : str) :
  exists i,
    Py.find UML_GENERATION_PROMPT YAML_FILE = Some i /\
    uml_model_text env yml_body
    = invoke_model_text env MODEL_ID
        (request_body env
           (Py.slice UML_GENERATION_PROMPT 0 i
            ++ yml_body
            ++ Py.slice UML_GENERATION_PROMPT (i + len YAML_FILE)
                 (len UML_GENERATION_PROMPT))).
Proof.
  eexists. split; [vm_compute; reflexivity |].
  unfold uml_model_text. cbv zeta. do 2 f_equal.
Qed.

Lemma code_prompt_first_pass (yml_body : str) :
  exists i,
    Py.find CODE_GENERATION_PROMPT YAML_FILE = Some i /\
    Py.replace CODE_GENERATION_PROMPT YAML_FILE yml_body
    = Py.slice CODE_GENERATION_PROMPT 0 (i - 1)
      ++ 10 :: (yml_body
                ++ 10 :: Py.slice CODE_GENERATION_PROMPT
                           (i + len YAML_FILE + 1)
                           (len CODE_GENERATION_PROMPT)).
Proof.
  eexists. split; vm_compute; reflexivity.
Qed.

(** X15: [get_unit_test_code] asks the model with the template in which
    the YAML body and the user query stand in place of their placeholders;
    since the query is substituted second, a [{USER_QUERY}] inside the YAML
    body is replaced by the query as well, while the query itself is
    inserted verbatim. *)
Theorem get_unit_test_code_prompt (env : services) (yml_body user_query : str) :
  exists i j,
    Py.find CODE_GENERATION_PROMPT YAML_FILE = Some i /\
    Py.find CODE_GENERATION_PROMPT USER_QUERY = Some j /\
    get_unit_test_code_try env yml_body user_query
    = (code_body <-
         invoke_model_text env MODEL_ID
           (request_body env
              (Py.slice CODE_GENERATION_PROMPT 0 i
               ++ Py.replace yml_body USER_QUERY user_query
               ++ Py.slice CODE_GENERATION_PROMPT (i + len YAML_FILE) j
               ++ user_query
               ++ Py.slice CODE_GENERATION_PROMPT (j + len USER_QUERY)
                    (len CODE_GENERATION_PROMPT))) ;;
       Ok (JDict [("codeBody", JStr code_body)])).
Proof.
  destruct (code_prompt_first_pass yml_body) as (i & Hi & Hfirst).
  exists i. eexists. split; [exact Hi |]. split; [vm_compute; reflexivity |].
  unfold get_unit_test_code_try. cbv zeta.
  change (lit "{YAML_FILE}") with YAML_FILE.
  change (lit "{USER_QUERY}") with USER_QUERY.
  rewrite Hfirst. do 4 f_equal.
  assert (Hne : USER_QUERY <> []) by discriminate.
  assert (Hsep : ~ In 10 USER_QUERY) by (vm_compute; intuition discriminate).
  rewrite !replace_nonempty by exact Hne.
  rewrite !replace_scan_sep by assumption.
  injection Hi as <-.
  vm_compute. reflexivity.
Qed.

(** X16: the entry built from a retrieved dictionary takes [score] and
    [metadata] from it, with 0 and an empty dictionary when they are
    missing, and [content] from the [text] of its [content] dictionary,
    with the empty string when either is missing; a [content] that is
    present but not a dictionary (a null, say) raises [AttributeError]
    instead of falling back to the default. *)
Theorem search_entry_cases (fields : list (string * json)) :
  (lookup "content" fields = None ->
   search_entry (JDict fields)
   = Ok (JDict [("content", JStr []);
                ("score", get_or "score" fields (JInt 0));
                ("metadata", get_or "metadata" fields (JDict []))])) /\
  (forall inner,
      lookup "content" fields = Some (JDict inner) ->
      search_entry (JDict fields)
      = Ok (JDict [("content", get_or "text" inner (JStr []));
                   ("score", get_or "score" fields (JInt 0));
                   ("metadata", get_or "metadata" fields (JDict []))])) /\
  (forall v,
      lookup "content" fields = Some v -> is_dict v = false ->
      search_entry (JDict fields)
      = Err (Raise AttributeErrorC
               (lit "'" ++ lit (type_name v)
                ++ lit "' object has no attribute 'get'"))).
Proof.
  unfold search_entry, get_or. cbn [py_get bind]. repeat split.
  - intros ->. reflexivity.
  - intros inner ->. reflexivity.
  - intros v -> Hv. destruct v; try discriminate; reflexivity.
Qed.
